(** * ConsoleTools: a shallow embedding of [ConsoleTools.cpp]

    The library builds ANSI-coloured strings (headers, progress bars,
    notifications) and runs a few blocking console interactions.  The
    string builders are embedded as functions on [string]; [int] values
    are integers of [Z]; [double] values are IEEE 754 binary64 numbers
    ([spec_float] at precision 53); console input and output are threaded
    through an explicit [World]. *)

From Stdlib Require Import ZArith String Ascii List Lia Bool.
From Stdlib Require Import DecimalString DecimalPos.
From Stdlib Require Import Floats.SpecFloat.
From Equations Require Import Equations.

Import ListNotations.
Local Open Scope string_scope.
Local Open Scope Z_scope.

(** ** C++ primitives used by the library *)

Module Cpp.

(** [s.push_back(c)] *)
Definition push_back (s : string) (c : ascii) : string := s ++ String c "".

(** [for (int i = i0; i < n; i++) acc = body i acc], entered with the
    counter at [i].  The recursion is on the distance left to [n]. *)
Equations? for_lt {A : Type} (i n : Z) (body : Z -> A -> A) (acc : A) : A
  by wf (Z.to_nat (n - i)) lt :=
  for_lt i n body acc with Z_lt_dec i n := {
    | left _ := for_lt (i + 1) n body (body i acc);
    | right _ := acc }.
Proof. lia. Qed.

(** [std::to_string] on an [int] *)
Definition to_string (z : Z) : string := NilZero.string_of_int (Z.to_int z).

(** [s.empty()] on a [std::string] *)
Definition empty (s : string) : bool :=
  match s with EmptyString => true | String _ _ => false end.

(** [v.empty()] on a [std::vector] *)
Definition vector_empty {A : Type} (v : list A) : bool :=
  match v with [] => true | _ :: _ => false end.

End Cpp.

Import Cpp.

(** ** The colour table ([struct Color]) *)

Module Color.
Definition ESC : ascii := "027"%char.
Definition csi (code : string) : string := String ESC ("[" ++ code ++ "m").

Definition RED := csi "31".
Definition ORANGE := csi "38;5;208".
Definition YELLOW := csi "33".
Definition GREEN := csi "32".
Definition BLUE := csi "34".
Definition PURPLE := csi "35".
Definition CYAN := csi "36".
Definition WHITE := csi "37".
Definition GRAY := csi "90".
Definition BLACK := csi "30".
Definition LIGHT_RED := csi "91".
Definition LIGHT_ORANGE := csi "38;5;214".
Definition LIGHT_YELLOW := csi "93".
Definition LIGHT_GREEN := csi "92".
Definition LIGHT_BLUE := csi "94".
Definition LIGHT_PURPLE := csi "95".
Definition LIGHT_CYAN := csi "96".
Definition RESET := csi "0".
End Color.

Definition newline : string := String "010"%char "".

(** ** String builders *)

Definition Spacing (NumberOfSpaces : Z) : string :=
  let spacing := "" in
  let spacing := for_lt 0 NumberOfSpaces (fun _ spacing => spacing ++ newline) spacing in
  spacing.

Definition Header (LineCharacter : string) (LineCharacterCount : Z)
    (HeaderText SpacingCharacter LineColor HeaderTextColor
     SpacingCharacterColor : string) : string :=
  let header := "" in
  let lineSegment := "" in
  let lineSegment :=
    for_lt 0 LineCharacterCount (fun _ seg => seg ++ LineCharacter) lineSegment in
  let header := header ++ LineColor in
  let header := header ++ lineSegment in
  let header := header ++ SpacingCharacterColor in
  let header := header ++ SpacingCharacter in
  let header := header ++ HeaderTextColor in
  let header := header ++ HeaderText in
  let header := header ++ SpacingCharacterColor in
  let header := header ++ SpacingCharacter in
  let header := header ++ LineColor in
  let header := header ++ lineSegment in
  let header := header ++ Color.RESET in
  header.

Definition AdvancedHeader (LeftLineCharacter : string) (LeftLineCharacterCount : Z)
    (RightLineCharacter : string) (RightLineCharacterCount : Z)
    (HeaderText SpacingCharacter LeftLineColor RightLineColor HeaderTextColor
     SpacingCharacterColor : string) (ResetColorOnEnd : bool) : string :=
  let header := "" in
  let LlineSegment := "" in
  let RlineSegment := "" in
  let LlineSegment :=
    for_lt 0 LeftLineCharacterCount (fun _ seg => seg ++ LeftLineCharacter) LlineSegment in
  let RlineSegment :=
    for_lt 0 RightLineCharacterCount (fun _ seg => seg ++ RightLineCharacter) RlineSegment in
  let header := header ++ LeftLineColor in
  let header := header ++ LlineSegment in
  let header := header ++ SpacingCharacterColor in
  let header := header ++ SpacingCharacter in
  let header := header ++ HeaderTextColor in
  let header := header ++ HeaderText in
  let header := header ++ SpacingCharacterColor in
  let header := header ++ SpacingCharacter in
  let header := header ++ RightLineColor in
  let header := header ++ RlineSegment in
  let header := if ResetColorOnEnd then header ++ Color.RESET else header in
  header.

Definition Error (Message : string) : string :=
  let error := "" in
  let error := error ++ Color.LIGHT_RED in
  let error := error ++ "[ERROR]: " in
  let error := error ++ Message in
  error.

Definition Warning (Message : string) : string :=
  let warning := "" in
  let warning := warning ++ Color.LIGHT_YELLOW in
  let warning := warning ++ "[WARNING]: " in
  let warning := warning ++ Message in
  warning.

Definition Notification (LeftBorderCharacter InsideCharacter
    RightBorderCharacter NotificationTypeText NotificationText
    BorderCharacterColor InsideCharacterColor NotificationTextColor : string)
    : string :=
  let notification := "" in
  let notification := notification ++ BorderCharacterColor in
  let notification := notification ++ LeftBorderCharacter in
  let notification := notification ++ InsideCharacterColor in
  let notification := notification ++ InsideCharacter in
  let notification := notification ++ BorderCharacterColor in
  let notification := notification ++ RightBorderCharacter in
  let notification := notification ++ InsideCharacterColor in
  let notification := notification ++ (" " ++ NotificationTypeText) in
  let notification := notification ++ ": " in
  let notification := notification ++ NotificationTextColor in
  let notification := notification ++ NotificationText in
  let notification := notification ++ Color.RESET in
  notification.


(** ** [int] arithmetic

    An [int] is a 32-bit two's complement integer, held in [Z].  Signed
    overflow is undefined in C++: the operations that can leave the range
    return [None]. *)

Module Int.
Definition INT_MIN : Z := - 2 ^ 31.
Definition INT_MAX : Z := 2 ^ 31 - 1.

Definition in_range (z : Z) : bool := (INT_MIN <=? z) && (z <=? INT_MAX).

(** [a - b] on [int] *)
Definition sub (a b : Z) : option Z :=
  if in_range (a - b) then Some (a - b) else None.

(** [static_cast<int>(n)] for a [size_t] value [n]: reduction modulo 2^32
    into the signed range. *)
Definition of_size_t (n : Z) : Z := (n + 2 ^ 31) mod 2 ^ 32 - 2 ^ 31.
End Int.

(** ** [double] arithmetic: IEEE 754 binary64 *)

Module Double.
Definition prec : Z := 53.
Definition emax : Z := 1024.
Definition double : Type := spec_float.

(** [static_cast<double>(z)], and the implicit conversion of an [int]
    operand of [/] or [*] whose other operand is a [double] *)
Definition of_int (z : Z) : double := binary_normalize prec emax z 0 false.

Definition div (x y : double) : double := SFdiv prec emax x y.
Definition mul (x y : double) : double := SFmul prec emax x y.

(** The literal [0.0] *)
Definition zero : double := S754_zero false.

(** [static_cast<int>(d)]: the fractional part is discarded.  The
    conversion is undefined when the truncated value is not an [int];
    that covers NaN and the infinities. *)
Definition to_int (d : double) : option Z :=
  match d with
  | S754_zero _ => Some 0
  | S754_finite s m e =>
      let magnitude := Z.shiftl (Z.pos m) e in
      let t := if s then - magnitude else magnitude in
      if Int.in_range t then Some t else None
  | S754_infinity _ => None
  | S754_nan => None
  end.
End Double.

(** Undefined behaviour is propagated by the bind of [option]. *)
Notation "x <-? m ; k" := (match m with Some x => k | None => None end)
  (at level 61, m at next level, right associativity, only parsing).

(** ** Progress bars *)

Definition ProgressBar (CurrentProgress MaxProgress BarWidth : Z)
    (BarColor : string) (ShowPercentage : bool) (PercentageColor : string)
    : option string :=
  (* Clamp progress values to bounds *)
  let CurrentProgress :=
    if CurrentProgress >? MaxProgress then MaxProgress else CurrentProgress in
  let CurrentProgress :=
    if CurrentProgress <? 0 then 0 else CurrentProgress in
  (* Calculate progress fraction *)
  let progress := Double.div (Double.of_int CurrentProgress) (Double.of_int MaxProgress) in
  filledWidth <-? Double.to_int (Double.mul progress (Double.of_int BarWidth));
  remainingWidth <-? Int.sub BarWidth filledWidth;
  (* Build the bar *)
  let bar := "" in
  let bar := bar ++ BarColor in
  let bar := for_lt 0 filledWidth (fun _ bar => push_back bar "#") bar in
  let bar := for_lt 0 remainingWidth (fun _ bar => push_back bar "-") bar in
  let bar := bar ++ Color.RESET in
  (* Optionally show percentage *)
  if ShowPercentage then
    percentage <-? Double.to_int (Double.mul progress (Double.of_int 100));
    let bar := push_back bar " " in
    let bar := bar ++ PercentageColor in
    let bar := bar ++ to_string percentage in
    let bar := push_back bar "%" in
    let bar := bar ++ Color.RESET in
    Some bar
  else Some bar.

Definition AdvancedProgressBar (CurrentPercentage MaxPercentage BarWidth : Z)
    (PrefixText SuffixText FillChar UnfilledChar FillColor UnfilledColor
     TextColor PrefixColor SuffixColor BracketColor : string)
    (ShowPercentage ShowBrackets ResetColorOnCompletion : bool)
    : option string :=
  (* Clamp current progress *)
  let CurrentPercentage :=
    if CurrentPercentage <? 0 then 0 else CurrentPercentage in
  let CurrentPercentage :=
    if CurrentPercentage >? MaxPercentage then MaxPercentage else CurrentPercentage in
  (* Calculate progress fraction, avoid divide-by-zero *)
  let progress :=
    if negb (MaxPercentage =? 0)
    then Double.div (Double.of_int CurrentPercentage) (Double.of_int MaxPercentage)
    else Double.zero in
  filledWidth <-? Double.to_int (Double.mul progress (Double.of_int BarWidth));
  remainingWidth <-? Int.sub BarWidth filledWidth;
  let result := "" in
  (* Prefix *)
  let result :=
    if negb (empty PrefixText)
    then (result ++ PrefixColor) ++ PrefixText
    else result in
  (* Optional brackets *)
  let result :=
    if ShowBrackets then push_back (result ++ BracketColor) "[" else result in
  (* Filled portion *)
  let result := result ++ FillColor in
  let result := for_lt 0 filledWidth (fun _ result => result ++ FillChar) result in
  (* Unfilled portion *)
  let result := result ++ UnfilledColor in
  let result := for_lt 0 remainingWidth (fun _ result => result ++ UnfilledChar) result in
  (* Close brackets *)
  let result :=
    if ShowBrackets then push_back (result ++ BracketColor) "]" else result in
  (* Show percentage *)
  result <-?
    (if ShowPercentage then
       percentageValue <-? Double.to_int (Double.mul progress (Double.of_int 100));
       let result := result ++ TextColor in
       let result := result ++ " " in
       let result := result ++ to_string percentageValue in
       let result := push_back result "%" in
       Some result
     else Some result);
  (* Suffix *)
  let result :=
    if negb (empty SuffixText)
    then ((result ++ " ") ++ SuffixColor) ++ SuffixText
    else result in
  let result :=
    if ResetColorOnCompletion then result ++ Color.RESET else result in
  Some result.

(** ** The console

    [std::cin] is the list of the lines that are still to be read,
    [std::cout] and [std::cerr] are the text written so far. *)

Record World : Type := mkWorld {
  cin : list string;
  cout : string;
  cerr : string
}.

Module IO.
Definition IO (A : Type) : Type := World -> A * World.

Definition ret {A : Type} (a : A) : IO A := fun w => (a, w).

Definition bind {A B : Type} (m : IO A) (k : A -> IO B) : IO B :=
  fun w => let (a, w') := m w in k a w'.

(** [std::cout << s] *)
Definition cout_put (s : string) : IO unit :=
  fun w => (tt, mkWorld (cin w) (cout w ++ s) (cerr w)).

(** [std::cerr << s] *)
Definition cerr_put (s : string) : IO unit :=
  fun w => (tt, mkWorld (cin w) (cout w) (cerr w ++ s)).

(** [std::getline(std::cin, input)]: [None] when the stream converts to
    [false], which is at the end of the input. *)
Definition getline : IO (option string) :=
  fun w =>
    match cin w with
    | [] => (None, w)
    | line :: rest => (Some line, mkWorld rest (cout w) (cerr w))
    end.

(** [for (size_t i = 0; i < n; i++) body(i)] *)
Definition for_each_index (n : Z) (body : Z -> IO unit) : IO unit :=
  fun w => (tt, for_lt 0 n (fun i w => snd (body i w)) w).
End IO.

Import IO.

Notation "m1 ;; m2" := (bind m1 (fun _ => m2))
  (at level 62, right associativity, only parsing).
Notation "x <- m1 ;; m2" := (bind m1 (fun x => m2))
  (at level 62, m1 at next level, right associativity, only parsing).

(** ** Waiting for the Enter key *)

(** [std::cin.ignore(std::numeric_limits<std::streamsize>::max(), '\n')]:
    the input is discarded up to and including the next line end; at the
    end of the input nothing is left to discard. *)
Definition cin_ignore_line : IO unit :=
  fun w => (tt, mkWorld (List.tl (cin w)) (cout w) (cerr w)).

Definition PauseConsole (message : string) : IO unit :=
  cout_put message ;; cout_put newline ;;
  cin_ignore_line.

(** ** [std::stoi]

    [std::stoi(str)] is [strtol] in base 10 followed by a range check:
    leading white space is skipped, one sign is accepted, the longest run
    of digits is converted and what follows it is ignored. *)

Inductive stoi_result : Type :=
  | Parsed (value : Z)
  | invalid_argument
  | out_of_range.

Definition isspace (c : ascii) : bool :=
  let n := nat_of_ascii c in
  Nat.eqb n 32 || (Nat.leb 9 n && Nat.leb n 13).

Definition isdigit (c : ascii) : bool :=
  let n := nat_of_ascii c in
  Nat.leb 48 n && Nat.leb n 57.

Fixpoint skip_spaces (s : string) : string :=
  match s with
  | String c rest => if isspace c then skip_spaces rest else s
  | EmptyString => s
  end.

(** The value of the leading run of digits of [s], [acc] being the value
    of the digits already read; [None] when [s] starts with no digit and
    none was read ([seen] false). *)
Fixpoint read_digits (seen : bool) (acc : Z) (s : string) : option Z :=
  match s with
  | String c rest =>
      if isdigit c
      then read_digits true (10 * acc + (Z.of_nat (nat_of_ascii c) - 48)) rest
      else if seen then Some acc else None
  | EmptyString => if seen then Some acc else None
  end.

Definition stoi (str : string) : stoi_result :=
  let s := skip_spaces str in
  let (negative, s) :=
    match s with
    | String "-"%char rest => (true, rest)
    | String "+"%char rest => (false, rest)
    | _ => (false, s)
    end in
  match read_digits false 0 s with
  | None => invalid_argument
  | Some magnitude =>
      let value := if negative then - magnitude else magnitude in
      if Int.in_range value then Parsed value else out_of_range
  end.

(** ** The numbered menu *)

Definition PromptNumberedMenu (Options : list string)
    (SeperatorCharacter PromptMessage InputQuestionText MessageColor
     NumberColor SeperatorColor OptionColor InputQuestionColor
     ErrorColor : string) : IO Z :=
  let size := Z.of_nat (List.length Options) in
  if vector_empty Options then
    cerr_put ("No menu options provided." ++ newline) ;;
    ret (-1)
  else
    cout_put MessageColor ;; cout_put PromptMessage ;; cout_put newline ;;
    (* Print each option *)
    for_each_index size (fun i =>
      cout_put NumberColor ;; cout_put (to_string (i + 1)) ;;
      cout_put SeperatorColor ;; cout_put SeperatorCharacter ;;
      cout_put OptionColor ;; cout_put (nth (Z.to_nat i) Options "") ;;
      cout_put Color.RESET ;; cout_put newline) ;;
    (* Ask for user input *)
    cout_put InputQuestionColor ;; cout_put newline ;;
    cout_put InputQuestionText ;; cout_put NumberColor ;;
    input <- getline ;;
    match input with
    | None =>
        (* Input read error *)
        cout_put ErrorColor ;;
        cerr_put ("Input error. Exiting." ++ newline) ;;
        cout_put Color.RESET ;;
        ret (-1)
    | Some input =>
        (* Convert the user input to an integer; the [try] block either
           returns a value or falls through to the end of the function *)
        returned <-
          match stoi input with
          | Parsed choice =>
              if (choice <? 1) || (choice >? Int.of_size_t size) then
                (* Out-of-range choice *)
                cout_put ErrorColor ;;
                cout_put "Invalid choice. Please enter a number between 1 and " ;;
                cout_put (to_string size) ;;
                cout_put ("." ++ newline ++ newline) ;;
                cout_put Color.RESET ;;
                ret None
              else
                (* Valid choice *)
                cout_put Color.RESET ;;
                ret (Some (choice - 1))
          | invalid_argument =>
              (* Non-integer input *)
              cout_put ErrorColor ;;
              cout_put ("Invalid input. Please enter a numeric value."
                        ++ newline ++ newline) ;;
              cout_put Color.RESET ;;
              ret None
          | out_of_range =>
              (* Very large number that cannot fit in int *)
              cout_put ErrorColor ;;
              cout_put ("The number you entered is out of range. Please try again."
                        ++ newline ++ newline) ;;
              cout_put Color.RESET ;;
              ret None
          end ;;
        match returned with
        | Some value => ret value
        | None =>
            (* If we reach here, the input was invalid. *)
            cout_put Color.RESET ;;
            ret (-1)
        end
    end.

(** ** Vocabulary of the statements *)

(** [replicate n s]: [s] written [n] times. *)
Fixpoint replicate (n : nat) (s : string) : string :=
  match n with
  | O => ""
  | S k => s ++ replicate k s
  end.

(** [ends_with s suffix]: [s] is some text followed by [suffix]. *)
Definition ends_with (s suffix : string) : Prop :=
  exists front, s = front ++ suffix.

(** [bar_layout filled unfilled percentage ...]: the pieces of an advanced
    progress bar in their order, for given segment lengths and percentage
    text. *)
Definition bar_layout (filled unfilled : Z) (percentage : string)
    (PrefixText SuffixText FillChar UnfilledChar FillColor UnfilledColor
     TextColor PrefixColor SuffixColor BracketColor : string)
    (ShowPercentage ShowBrackets ResetColorOnCompletion : bool) : string :=
  (if empty PrefixText then "" else PrefixColor ++ PrefixText) ++
  (if ShowBrackets then BracketColor ++ "[" else "") ++
  FillColor ++ replicate (Z.to_nat filled) FillChar ++
  UnfilledColor ++ replicate (Z.to_nat unfilled) UnfilledChar ++
  (if ShowBrackets then BracketColor ++ "]" else "") ++
  (if ShowPercentage then TextColor ++ " " ++ percentage ++ "%" else "") ++
  (if empty SuffixText then "" else " " ++ SuffixColor ++ SuffixText) ++
  (if ResetColorOnCompletion then Color.RESET else "").

(** [blank s]: every character of [s] is white space. *)
Definition blank (s : string) : bool :=
  forallb isspace (list_ascii_of_string s).

(** [no_digit_ahead s]: [s] is empty or starts with a character that is
    not a digit. *)
Definition no_digit_ahead (s : string) : bool :=
  match s with
  | EmptyString => true
  | String c _ => negb (isdigit c)
  end.

(** [menu_lines index Options]: one line per option, numbered from
    [index] on, each closed by the reset sequence and a line end. *)
Fixpoint menu_lines (NumberColor SeperatorColor SeperatorCharacter
    OptionColor : string) (index : Z) (Options : list string) : string :=
  match Options with
  | [] => ""
  | option :: rest =>
      NumberColor ++ to_string index ++ SeperatorColor ++ SeperatorCharacter ++
      OptionColor ++ option ++ Color.RESET ++ newline ++
      menu_lines NumberColor SeperatorColor SeperatorCharacter OptionColor
        (index + 1) rest
  end.

(** [menu_screen]: what the menu has written when it starts to wait for
    the answer. *)
Definition menu_screen (Options : list string)
    (SeperatorCharacter PromptMessage InputQuestionText MessageColor
     NumberColor SeperatorColor OptionColor InputQuestionColor : string)
    : string :=
  MessageColor ++ PromptMessage ++ newline ++
  menu_lines NumberColor SeperatorColor SeperatorCharacter OptionColor 1 Options ++
  InputQuestionColor ++ newline ++ InputQuestionText ++ NumberColor.

(** [integer_text line]: the value of a line that is a decimal integer and
    nothing else: digits, with a minus sign in front at most. *)
Definition integer_text (line : string) : option Z :=
  option_map Z.of_int (NilZero.int_of_string line).

(** [strip_sign s]: [s] without the sign it starts with, if any. *)
Definition strip_sign (s : string) : string :=
  match s with
  | String "-"%char rest => rest
  | String "+"%char rest => rest
  | _ => s
  end.

(** [no_number_ahead line]: after its leading white space and one sign,
    [line] does not go on with a digit. *)
Definition no_number_ahead (line : string) : bool :=
  no_digit_ahead (strip_sign (skip_spaces line)).

(** The fraction that [AdvancedProgressBar] computes from the current and
    the maximum value: its two clamping tests and its guard against a
    maximum of zero. *)
Definition progress_fraction (CurrentPercentage MaxPercentage : Z)
    : Double.double :=
  let CurrentPercentage :=
    if CurrentPercentage <? 0 then 0 else CurrentPercentage in
  let CurrentPercentage :=
    if CurrentPercentage >? MaxPercentage then MaxPercentage else CurrentPercentage in
  if negb (MaxPercentage =? 0)
  then Double.div (Double.of_int CurrentPercentage) (Double.of_int MaxPercentage)
  else Double.zero.

(** * Properties *)

(** ** Strings *)

Section StringFacts.

Lemma append_nil_r (s : string) : s ++ "" = s.
Proof. induction s as [|c s IH]; simpl; [reflexivity | now rewrite IH]. Qed.

Lemma append_assoc (s t u : string) : (s ++ t) ++ u = s ++ (t ++ u).
Proof. induction s as [|c s IH]; simpl; [reflexivity | now rewrite IH]. Qed.

Lemma list_ascii_append (s t : string) :
  list_ascii_of_string (s ++ t) =
  (list_ascii_of_string s ++ list_ascii_of_string t)%list.
Proof. induction s as [|c s IH]; simpl; [reflexivity | now rewrite IH]. Qed.

Lemma list_ascii_replicate_char (n : nat) (c : ascii) :
  list_ascii_of_string (replicate n (String c "")) = List.repeat c n.
Proof. induction n as [|n IH]; simpl; [reflexivity | now rewrite IH]. Qed.

Lemma length_replicate_char (n : nat) (c : ascii) :
  String.length (replicate n (String c "")) = n.
Proof. induction n as [|n IH]; simpl; [reflexivity | now rewrite IH]. Qed.

Lemma ends_with_append (s suffix : string) : ends_with (s ++ suffix) suffix.
Proof. now exists s. Qed.

End StringFacts.

(** ** The counting loop *)

Section Loops.

Context {A : Type}.

(** A loop whose bound is already reached does nothing. *)
Lemma for_lt_done (i n : Z) (body : Z -> A -> A) (acc : A) :
  n <= i -> for_lt i n body acc = acc.
Proof.
  intros Hle. rewrite for_lt_equation_1.
  destruct (Z_lt_dec i n); [lia | reflexivity].
Qed.

Lemma for_lt_step (i n : Z) (body : Z -> A -> A) (acc : A) :
  i < n -> for_lt i n body acc = for_lt (i + 1) n body (body i acc).
Proof.
  intros Hlt. rewrite for_lt_equation_1.
  destruct (Z_lt_dec i n); [reflexivity | lia].
Qed.

End Loops.

Lemma for_lt_append (t : string) (k : nat) :
  forall (i n : Z) (acc : string),
    Z.to_nat (n - i) = k ->
    for_lt i n (fun _ s => s ++ t) acc = acc ++ replicate k t.
Proof.
  induction k as [|k IH]; intros i n acc Hk.
  - simpl. rewrite append_nil_r. apply for_lt_done. lia.
  - rewrite for_lt_step by lia. rewrite (IH (i + 1) n) by lia.
    simpl. now rewrite append_assoc.
Qed.

Lemma for_lt_replicate (t : string) (n : Z) (acc : string) :
  for_lt 0 n (fun _ s => s ++ t) acc = acc ++ replicate (Z.to_nat n) t.
Proof. apply for_lt_append. f_equal. lia. Qed.

(** ** Spacing *)

(** C9: for every integer [n], [Spacing n] is made of exactly [n] newline
    characters when [n > 0], and is the empty string when [n] is zero or
    negative. *)
Theorem Spacing_newlines (n : Z) :
  (0 < n ->
     list_ascii_of_string (Spacing n) = List.repeat "010"%char (Z.to_nat n) /\
     Z.of_nat (String.length (Spacing n)) = n) /\
  (n <= 0 -> Spacing n = "").
Proof.
  unfold Spacing. rewrite for_lt_replicate. simpl. unfold newline. split.
  - intros Hpos. split.
    + apply list_ascii_replicate_char.
    + rewrite length_replicate_char. lia.
  - intros Hle. replace (Z.to_nat n) with O by lia. reflexivity.
Qed.

Lemma Spacing_newlines_witness :
  (0 < 3 /\
   list_ascii_of_string (Spacing 3) = ["010"; "010"; "010"]%char /\
   Z.of_nat (String.length (Spacing 3)) = 3) /\
  (-1 <= 0 /\ Spacing (-1) = "").
Proof.
  split.
  - split; [lia | apply (proj1 (Spacing_newlines 3)); lia].
  - split; [lia | apply (proj2 (Spacing_newlines (-1))); lia].
Defined.

(** ** Headers *)

(** C4: [Header] returns the line colour, the line segment, the spacing
    colour and character, the text colour and text, the spacing colour and
    character again, the line colour and segment again, and the reset
    sequence; a negative count gives an empty segment; the result ends
    with the reset sequence. *)
Theorem Header_layout (lineChar : string) (lineCount : Z)
    (text spaceChar lineColor textColor spaceColor : string) :
  Header lineChar lineCount text spaceChar lineColor textColor spaceColor =
    lineColor ++ replicate (Z.to_nat lineCount) lineChar ++
    spaceColor ++ spaceChar ++ textColor ++ text ++ spaceColor ++ spaceChar ++
    lineColor ++ replicate (Z.to_nat lineCount) lineChar ++ Color.RESET
  /\ (lineCount < 0 ->
      Header lineChar lineCount text spaceChar lineColor textColor spaceColor =
        lineColor ++ spaceColor ++ spaceChar ++ textColor ++ text ++
        spaceColor ++ spaceChar ++ lineColor ++ Color.RESET)
  /\ ends_with
       (Header lineChar lineCount text spaceChar lineColor textColor spaceColor)
       Color.RESET.
Proof.
  assert (Heq :
    Header lineChar lineCount text spaceChar lineColor textColor spaceColor =
    lineColor ++ replicate (Z.to_nat lineCount) lineChar ++
    spaceColor ++ spaceChar ++ textColor ++ text ++ spaceColor ++ spaceChar ++
    lineColor ++ replicate (Z.to_nat lineCount) lineChar ++ Color.RESET).
  { unfold Header. rewrite for_lt_replicate. simpl.
    now rewrite !append_assoc. }
  split; [exact Heq|]. split.
  - intros Hneg. rewrite Heq.
    replace (Z.to_nat lineCount) with O by lia. reflexivity.
  - unfold Header. apply ends_with_append.
Qed.

Lemma Header_layout_witness :
  -2 < 0 /\
  Header "=" (-2) "HI" " " Color.CYAN Color.YELLOW Color.GREEN =
    Color.CYAN ++ Color.GREEN ++ " " ++ Color.YELLOW ++ "HI" ++
    Color.GREEN ++ " " ++ Color.CYAN ++ Color.RESET.
Proof.
  split; [lia|].
  apply (proj1 (proj2 (Header_layout "=" (-2) "HI" " "
                         Color.CYAN Color.YELLOW Color.GREEN))).
  lia.
Defined.

(** C10: [Header] is [AdvancedHeader] called with the same character,
    count and colour on both sides and with the final reset switched on. *)
Theorem Header_is_AdvancedHeader (lineChar : string) (lineCount : Z)
    (text spaceChar lineColor textColor spaceColor : string) :
  Header lineChar lineCount text spaceChar lineColor textColor spaceColor =
  AdvancedHeader lineChar lineCount lineChar lineCount text spaceChar
    lineColor lineColor textColor spaceColor true.
Proof. unfold Header, AdvancedHeader. reflexivity. Qed.

(** C6 (as amended): with [resetOnEnd] true, [AdvancedHeader] returns the
    output for [resetOnEnd] false followed by the reset sequence, and so
    ends with it; with [resetOnEnd] false nothing follows the right line
    segment. *)
Theorem AdvancedHeader_reset_flag (leftChar : string) (leftCount : Z)
    (rightChar : string) (rightCount : Z)
    (text spaceChar leftColor rightColor textColor spaceColor : string) :
  AdvancedHeader leftChar leftCount rightChar rightCount text spaceChar
    leftColor rightColor textColor spaceColor true =
  AdvancedHeader leftChar leftCount rightChar rightCount text spaceChar
    leftColor rightColor textColor spaceColor false ++ Color.RESET
  /\ ends_with
       (AdvancedHeader leftChar leftCount rightChar rightCount text spaceChar
          leftColor rightColor textColor spaceColor true)
       Color.RESET
  /\ AdvancedHeader leftChar leftCount rightChar rightCount text spaceChar
       leftColor rightColor textColor spaceColor false =
     leftColor ++ replicate (Z.to_nat leftCount) leftChar ++
     spaceColor ++ spaceChar ++ textColor ++ text ++ spaceColor ++ spaceChar ++
     rightColor ++ replicate (Z.to_nat rightCount) rightChar.
Proof.
  split; [reflexivity|]. split.
  - unfold AdvancedHeader. apply ends_with_append.
  - unfold AdvancedHeader. rewrite !for_lt_replicate. simpl.
    now rewrite !append_assoc.
Qed.

(** C6, the claim as first stated fails: a header built without the final
    reset still ends with the reset sequence when the caller's last piece
    is that sequence (here the colour of an empty right line). *)
Lemma AdvancedHeader_reset_iff_counterexample :
  ~ (ends_with
       (AdvancedHeader "<" 2 ">" 0 "T" " "
          Color.CYAN Color.RESET Color.YELLOW Color.GREEN false)
       Color.RESET
     <-> false = true).
Proof.
  intros [Hends _]. discriminate Hends.
  exists (AdvancedHeader "<" 2 ">" 0 "T" " "
            Color.CYAN "" Color.YELLOW Color.GREEN false).
  vm_compute. reflexivity.
Qed.

(** ** Error and warning tags *)

Section TrailingReset.

Lemma string_of_list_ascii_app (l1 l2 : list ascii) :
  string_of_list_ascii (l1 ++ l2) =
  string_of_list_ascii l1 ++ string_of_list_ascii l2.
Proof. induction l1 as [|c l1 IH]; simpl; [reflexivity | now rewrite IH]. Qed.

(** Text that ends with a blank and is followed by [m] ends with the reset
    sequence only through [m]. *)
Lemma ends_with_reset_through (tag m : string) :
  ends_with ((tag ++ " ") ++ m) Color.RESET -> ends_with m Color.RESET.
Proof.
  intros [front Hfront].
  apply (f_equal list_ascii_of_string) in Hfront.
  apply (f_equal (@List.rev ascii)) in Hfront.
  rewrite !list_ascii_append, !List.rev_app_distr in Hfront.
  simpl in Hfront.
  assert (Hm : exists r, List.rev (list_ascii_of_string m) =
                         ("m" :: "0" :: "[" :: Color.ESC :: r)%char%list).
  { destruct (List.rev (list_ascii_of_string m))
      as [|c1 [|c2 [|c3 [|c4 r]]]]; simpl in Hfront;
      try discriminate Hfront.
    injection Hfront as -> -> -> -> _. now exists r. }
  destruct Hm as [r Hr].
  exists (string_of_list_ascii (List.rev r)).
  rewrite <- (string_of_list_ascii_of_string m).
  rewrite <- (List.rev_involutive (list_ascii_of_string m)), Hr.
  simpl. rewrite <- !List.app_assoc. simpl.
  now rewrite string_of_list_ascii_app.
Qed.

Lemma ends_with_append_l (s m suffix : string) :
  ends_with m suffix -> ends_with (s ++ m) suffix.
Proof.
  intros [front ->]. exists (s ++ front). now rewrite append_assoc.
Qed.

End TrailingReset.

(** C8: [Error m] is the light red colour, the tag "[ERROR]: " and [m];
    [Warning m] is the light yellow colour, the tag "[WARNING]: " and [m];
    no reset is appended: nothing follows the message, and the result ends
    with the reset sequence only when the message itself does. *)
Theorem Error_Warning_layout (m : string) :
  Error m = Color.LIGHT_RED ++ "[ERROR]: " ++ m
  /\ Warning m = Color.LIGHT_YELLOW ++ "[WARNING]: " ++ m
  /\ (ends_with (Error m) Color.RESET <-> ends_with m Color.RESET)
  /\ (ends_with (Warning m) Color.RESET <-> ends_with m Color.RESET).
Proof.
  split; [reflexivity|]. split; [reflexivity|]. split; split.
  - apply (ends_with_reset_through (Color.LIGHT_RED ++ "[ERROR]:")).
  - apply ends_with_append_l.
  - apply (ends_with_reset_through (Color.LIGHT_YELLOW ++ "[WARNING]:")).
  - apply ends_with_append_l.
Qed.

(** ** Progress bars *)

Section Clamp.

Lemma gtb_false (a b : Z) : a <= b -> (a >? b) = false.
Proof. intros H. rewrite Z.gtb_ltb. apply Z.ltb_ge. exact H. Qed.

Lemma gtb_true (a b : Z) : b < a -> (a >? b) = true.
Proof. intros H. rewrite Z.gtb_ltb. apply Z.ltb_lt. exact H. Qed.

(** The two tests of [ProgressBar], in its order: against the maximum,
    then against zero. *)
Lemma ProgressBar_clamp_zero_max (c : Z) :
  (if (if c >? 0 then 0 else c) <? 0 then 0 else if c >? 0 then 0 else c) = 0.
Proof.
  destruct (Z_lt_le_dec 0 c) as [Hpos | Hle].
  - rewrite (gtb_true c 0 Hpos). reflexivity.
  - rewrite (gtb_false c 0 Hle).
    destruct (Z.ltb_spec c 0); [reflexivity | lia].
Qed.

End Clamp.

(** 0.0 / 0.0 is not a number, and neither is any product with it. *)
Lemma zero_over_zero : Double.div (Double.of_int 0) (Double.of_int 0) = S754_nan.
Proof. reflexivity. Qed.

Lemma mul_nan_l (d : Double.double) : Double.mul S754_nan d = S754_nan.
Proof. reflexivity. Qed.

(** C1: with a maximum of zero [ProgressBar] has no guard: the clamped
    progress is 0, the fraction is 0.0 / 0.0, and the conversion of the
    filled width to [int] is undefined, whatever the current value and the
    width. *)
Theorem ProgressBar_zero_max_undefined (current width : Z)
    (barColor : string) (showPercentage : bool) (percentColor : string) :
  ProgressBar current 0 width barColor showPercentage percentColor = None.
Proof.
  unfold ProgressBar. cbv zeta.
  rewrite ProgressBar_clamp_zero_max, zero_over_zero, mul_nan_l.
  reflexivity.
Qed.

(** C3: with a positive maximum, a negative current value renders as 0 and
    a current value above the maximum renders as the maximum. *)
Theorem ProgressBar_clamps (c max w : Z)
    (barColor : string) (showPercentage : bool) (percentColor : string) :
  0 < max ->
  (c < 0 ->
   ProgressBar c max w barColor showPercentage percentColor =
   ProgressBar 0 max w barColor showPercentage percentColor)
  /\ (max < c ->
      ProgressBar c max w barColor showPercentage percentColor =
      ProgressBar max max w barColor showPercentage percentColor).
Proof.
  intros Hmax. split; intros Hc; unfold ProgressBar; cbv zeta.
  - rewrite (gtb_false c max), (gtb_false 0 max) by lia.
    rewrite (proj2 (Z.ltb_lt c 0) Hc), Z.ltb_irrefl. reflexivity.
  - rewrite (gtb_true c max Hc), (gtb_false max max) by lia.
    rewrite (proj2 (Z.ltb_ge max 0)) by lia. reflexivity.
Qed.

Lemma ProgressBar_clamps_witness :
  (0 < 10 /\ -5 < 0 /\
   ProgressBar (-5) 10 10 Color.GREEN true Color.LIGHT_CYAN =
   ProgressBar 0 10 10 Color.GREEN true Color.LIGHT_CYAN)
  /\ (10 < 25 /\
      ProgressBar 25 10 10 Color.GREEN true Color.LIGHT_CYAN =
      ProgressBar 10 10 10 Color.GREEN true Color.LIGHT_CYAN).
Proof.
  split.
  - split; [lia|]. split; [lia|].
    apply (proj1 (ProgressBar_clamps (-5) 10 10 Color.GREEN true
                    Color.LIGHT_CYAN ltac:(lia))).
    lia.
  - split; [lia|].
    apply (proj2 (ProgressBar_clamps 25 10 10 Color.GREEN true
                    Color.LIGHT_CYAN ltac:(lia))).
    lia.
Defined.

(** ** The numbered menu *)

(** C7: with no option [PromptNumberedMenu] writes its complaint to the
    error stream and returns -1; nothing is written to the output stream
    and no line of the input is consumed. *)
Theorem PromptNumberedMenu_no_options
    (separator promptMessage inputQuestionText messageColor numberColor
     separatorColor optionColor inputQuestionColor errorColor : string)
    (w : World) :
  PromptNumberedMenu [] separator promptMessage inputQuestionText
    messageColor numberColor separatorColor optionColor inputQuestionColor
    errorColor w =
  (-1, mkWorld (cin w) (cout w)
         (cerr w ++ "No menu options provided." ++ newline)).
Proof. reflexivity. Qed.

Lemma of_size_t_small (n : Z) :
  0 <= n <= Int.INT_MAX -> Int.of_size_t n = n.
Proof.
  unfold Int.of_size_t, Int.INT_MAX. intros Hn.
  rewrite Z.mod_small by lia. lia.
Qed.

Section Binds.

Context {B : Type}.

Lemma bind_cout_put (s : string) (k : unit -> IO B) (w : World) :
  bind (cout_put s) k w = k tt (mkWorld (cin w) (cout w ++ s) (cerr w)).
Proof. reflexivity. Qed.

Lemma bind_for_each_index (n : Z) (body : Z -> IO unit) (k : unit -> IO B)
    (w : World) :
  bind (for_each_index n body) k w = k tt (snd (for_each_index n body w)).
Proof. reflexivity. Qed.

Lemma bind_getline_line (k : option string -> IO B)
    (line : string) (rest : list string) (out err : string) :
  bind getline k (mkWorld (line :: rest) out err) =
  k (Some line) (mkWorld rest out err).
Proof. reflexivity. Qed.

End Binds.

(** C2, the claim as first stated fails: after an out-of-range or a
    non-numeric line the call is over; the next line, although a valid
    choice, is left on the input and the result is not its index. *)
Lemma PromptNumberedMenu_retry_counterexample :
  (fst (PromptNumberedMenu ["A"; "B"] ": " "Choose:" "Your choice: "
          Color.WHITE Color.LIGHT_BLUE Color.GREEN Color.YELLOW
          Color.LIGHT_PURPLE Color.LIGHT_RED
          (mkWorld ["5"; "1"] "" "")) <> 1 - 1
   /\ cin (snd (PromptNumberedMenu ["A"; "B"] ": " "Choose:" "Your choice: "
                  Color.WHITE Color.LIGHT_BLUE Color.GREEN Color.YELLOW
                  Color.LIGHT_PURPLE Color.LIGHT_RED
                  (mkWorld ["5"; "1"] "" ""))) = ["1"])
  /\
  (fst (PromptNumberedMenu ["A"; "B"] ": " "Choose:" "Your choice: "
          Color.WHITE Color.LIGHT_BLUE Color.GREEN Color.YELLOW
          Color.LIGHT_PURPLE Color.LIGHT_RED
          (mkWorld ["abc"; "2"] "" "")) <> 2 - 1
   /\ cin (snd (PromptNumberedMenu ["A"; "B"] ": " "Choose:" "Your choice: "
                  Color.WHITE Color.LIGHT_BLUE Color.GREEN Color.YELLOW
                  Color.LIGHT_PURPLE Color.LIGHT_RED
                  (mkWorld ["abc"; "2"] "" ""))) = ["2"]).
Proof. vm_compute. repeat split; discriminate. Qed.

(** ** Evaluation on the calls of the specification and of the
    demonstration program *)

Example Header_example (A B C : string) :
  Header "=" 3 "HI" " " A B C =
  A ++ "===" ++ C ++ " " ++ B ++ "HI" ++ C ++ " " ++ A ++ "===" ++ Color.RESET.
Proof.
  unfold Header. rewrite for_lt_replicate. simpl.
  now rewrite !append_assoc.
Qed.

Example ProgressBar_half :
  ProgressBar 5 10 10 "" true "" =
  Some ("#####-----" ++ Color.RESET ++ " 50%" ++ Color.RESET).
Proof. vm_compute. reflexivity. Qed.

Example ProgressBar_negative_current :
  ProgressBar (-5) 10 10 "" true "" =
  Some ("----------" ++ Color.RESET ++ " 0%" ++ Color.RESET).
Proof. vm_compute. reflexivity. Qed.

(** The guarded variant, at the input where [ProgressBar] is undefined. *)
Example AdvancedProgressBar_zero_max :
  AdvancedProgressBar 5 0 10 "" "" "#" "-" "" "" "" "" "" "" true false false =
  Some "---------- 0%".
Proof. vm_compute. reflexivity. Qed.

Example AdvancedProgressBar_demo :
  AdvancedProgressBar 3 10 20 "Loading" "Complete" "#" "-"
    "<f>" "<u>" "<t>" "<p>" "<s>" "<b>" true true false =
  Some "<p>Loading<b>[<f>######<u>--------------<b>]<t> 30% <s>Complete".
Proof. vm_compute. reflexivity. Qed.

Example AdvancedProgressBar_no_texts :
  AdvancedProgressBar 3 10 20 "" "" "#" "-"
    "<f>" "<u>" "<t>" "<p>" "<s>" "<b>" true true false =
  Some "<b>[<f>######<u>--------------<b>]<t> 30%".
Proof. vm_compute. reflexivity. Qed.

Example stoi_examples :
  stoi "2" = Parsed 2 /\ stoi "  +1 apple" = Parsed 1 /\
  stoi "abc" = invalid_argument /\ stoi "" = invalid_argument /\
  stoi "99999999999" = out_of_range /\ stoi "-2147483648" = Parsed (-2147483648).
Proof. vm_compute. repeat split. Qed.

Example PromptNumberedMenu_choices :
  fst (PromptNumberedMenu ["A"; "B"] ": " "Choose:" "Your choice: "
         "" "" "" "" "" "" (mkWorld ["1"] "" "")) = 0 /\
  fst (PromptNumberedMenu ["A"; "B"] ": " "Choose:" "Your choice: "
         "" "" "" "" "" "" (mkWorld ["2"] "" "")) = 1 /\
  fst (PromptNumberedMenu ["A"; "B"] ": " "Choose:" "Your choice: "
         "" "" "" "" "" "" (mkWorld [] "" "")) = -1.
Proof. vm_compute. repeat split. Qed.

(** * Further properties *)

(** ** Binary64 facts used by the progress bars *)

Section Binary64.

Lemma digits2_pos_bounds (p : positive) :
  2 ^ (Z.pos (digits2_pos p) - 1) <= Z.pos p < 2 ^ Z.pos (digits2_pos p).
Proof.
  assert (Hdouble : forall d : positive, 2 ^ Z.pos d = 2 * 2 ^ (Z.pos d - 1)).
  { intros d. rewrite <- Z.pow_succ_r by lia. f_equal. lia. }
  induction p as [p IH | p IH |]; cbn [digits2_pos].
  - rewrite Pos2Z.inj_succ, Pos2Z.inj_xI, Z.pow_succ_r by lia.
    replace (Z.succ (Z.pos (digits2_pos p)) - 1) with (Z.pos (digits2_pos p)) by lia.
    rewrite Hdouble in *. lia.
  - rewrite Pos2Z.inj_succ, Pos2Z.inj_xO, Z.pow_succ_r by lia.
    replace (Z.succ (Z.pos (digits2_pos p)) - 1) with (Z.pos (digits2_pos p)) by lia.
    rewrite Hdouble in *. lia.
  - cbn. lia.
Qed.

Lemma digits2_pos_iter_xO (p q : positive) :
  digits2_pos (Pos.iter xO p q) = (digits2_pos p + q)%positive.
Proof.
  induction q as [|q IH] using Pos.peano_ind.
  - cbn. lia.
  - rewrite Pos.iter_succ. cbn [digits2_pos]. rewrite IH. lia.
Qed.

Lemma iter_xO_value (p q : positive) :
  Z.pos (Pos.iter xO p q) = Z.pos p * 2 ^ Z.pos q.
Proof.
  induction q as [|q IH] using Pos.peano_ind.
  - cbn. lia.
  - rewrite Pos.iter_succ, Pos2Z.inj_xO, IH, Pos2Z.inj_succ, Z.pow_succ_r by lia. lia.
Qed.

(** A mantissa of 53 bits with an exponent in range is kept by the rounding. *)
Lemma round_canonical (s : bool) (m : positive) (e : Z) :
  digits2_pos m = 53%positive -> -1074 <= e <= 971 ->
  binary_round_aux Double.prec Double.emax s (Z.pos m) e loc_Exact =
  S754_finite s m e.
Proof.
  intros Hd He.
  assert (Hshift : fexp Double.prec Double.emax (Zdigits2 (Z.pos m) + e) - e = 0).
  { unfold fexp, emin, Double.prec, Double.emax. cbn [Zdigits2]. rewrite Hd. lia. }
  unfold binary_round_aux, shr_fexp.
  rewrite Hshift. cbn [shr shr_record_of_loc shr_m loc_of_shr_record round_nearest_even].
  rewrite Hshift. cbn [shr shr_record_of_loc shr_m].
  replace (e <=? Double.emax - Double.prec) with true; [reflexivity|].
  symmetry. apply Z.leb_le. unfold Double.emax, Double.prec. lia.
Qed.

Lemma of_int_pos (p : positive) :
  Z.pos p < 2 ^ 53 ->
  exists m e,
    binary_round Double.prec Double.emax false p 0 = S754_finite false m e /\
    binary_round Double.prec Double.emax true p 0 = S754_finite true m e /\
    digits2_pos m = 53%positive /\ -52 <= e <= 0 /\
    Z.pos m = Z.pos p * 2 ^ (- e).
Proof.
  intros Hp.
  pose proof (digits2_pos_bounds p) as [Hlow _].
  assert (Hd : Z.pos (digits2_pos p) <= 53).
  { destruct (Z_le_gt_dec (Z.pos (digits2_pos p)) 53) as [H|H]; [exact H|].
    exfalso. assert (2 ^ 53 <= 2 ^ (Z.pos (digits2_pos p) - 1))
      by (apply Z.pow_le_mono_r; lia). lia. }
  unfold binary_round.
  assert (Hf : fexp Double.prec Double.emax (Z.pos (digits2_pos p) + 0)
               = Z.pos (digits2_pos p) - 53).
  { unfold fexp, emin, Double.prec, Double.emax. lia. }
  rewrite Hf. unfold shl_align.
  destruct (Z.pos (digits2_pos p) - 53 - 0) as [|q|q] eqn:Hq; try lia.
  - exists p, 0. rewrite !round_canonical by lia.
    repeat split; try lia.
  - exists (Pos.iter xO p q), (Z.pos (digits2_pos p) - 53).
    assert (Hdq : digits2_pos (Pos.iter xO p q) = 53%positive)
      by (rewrite digits2_pos_iter_xO; lia).
    rewrite !round_canonical by (assumption || lia).
    repeat split; try lia.
    rewrite iter_xO_value. f_equal. f_equal. lia.
Qed.


Lemma to_int_finite (s : bool) (m : positive) (e z : Z) :
  -52 <= e <= 0 -> Z.pos m = z * 2 ^ (- e) ->
  Int.in_range (if s then - z else z) = true ->
  Double.to_int (S754_finite s m e) = Some (if s then - z else z).
Proof.
  intros He Hm Hr. unfold Double.to_int.
  assert (Hshift : Z.shiftl (Z.pos m) e = z).
  { rewrite Hm. destruct (Z.eq_dec e 0) as [-> | Hne].
    - cbn. lia.
    - rewrite Z.shiftl_div_pow2 by lia. apply Z.div_mul.
      apply Z.pow_nonzero; lia. }
  rewrite Hshift. cbv zeta. now rewrite Hr.
Qed.

(** x / x = 1 for a finite x. *)
Lemma div_self (s : bool) (m : positive) (e : Z) :
  digits2_pos m = 53%positive ->
  Double.div (S754_finite s m e) (S754_finite s m e) = Double.of_int 1.
Proof.
  intros Hd. unfold Double.div, SFdiv, SFdiv_core_binary.
  cbn [Zdigits2]. rewrite Hd.
  replace (Z.pos 53 + e - (Z.pos 53 + e)) with 0 by lia.
  replace (e - e) with 0 by lia.
  change (Z.min (fexp Double.prec Double.emax 0) 0) with (-53).
  change (0 - -53) with 53.
  cbv iota.
  assert (Hdiv : Z.div_eucl (Z.shiftl (Z.pos m) 53) (Z.pos m) = (2 ^ 53, 0)).
  { rewrite Z.shiftl_mul_pow2 by lia.
    pose proof (Z_div_mod (Z.pos m * 2 ^ 53) (Z.pos m) ltac:(lia)) as H.
    destruct (Z.div_eucl (Z.pos m * 2 ^ 53) (Z.pos m)) as [q r].
    destruct H as [Heq Hr].
    assert (Hq : q = 2 ^ 53) by nia.
    subst q. f_equal. lia. }
  rewrite Hdiv.
  assert (Hloc : new_location (Z.pos m) 0 = loc_Exact).
  { unfold new_location, new_location_even, new_location_odd.
    destruct (Z.even (Z.pos m)); reflexivity. }
  rewrite Hloc. rewrite xorb_nilpotent. reflexivity.
Qed.

(** 1 * x = x for a finite x. *)
Lemma mul_one (s : bool) (m : positive) (e : Z) :
  digits2_pos m = 53%positive -> -1022 <= e <= 971 ->
  Double.mul (Double.of_int 1) (S754_finite s m e) = S754_finite s m e.
Proof.
  intros Hd He.
  change (Double.of_int 1) with (S754_finite false 4503599627370496 (-52)).
  unfold Double.mul, SFmul. cbn [xorb].
  unfold binary_round_aux, shr_fexp.
  cbn [Pos.mul Zdigits2 digits2_pos]. rewrite Hd.
  cbn [Pos.succ].
  replace (fexp Double.prec Double.emax (Z.pos 105 + (-52 + e)) - (-52 + e))
    with 52 by (unfold fexp, emin, Double.prec, Double.emax; lia).
  cbn [shr shr_record_of_loc iter_pos shr_1 orb].
  cbn [shr_m loc_of_shr_record round_nearest_even Zdigits2]. rewrite Hd.
  replace (fexp Double.prec Double.emax (Z.pos 53 + (-52 + e + 52)) - (-52 + e + 52))
    with 0 by (unfold fexp, emin, Double.prec, Double.emax; lia).
  cbn [shr shr_record_of_loc shr_m].
  replace (-52 + e + 52) with e by lia.
  replace (e <=? Double.emax - Double.prec) with true; [reflexivity|].
  symmetry. apply Z.leb_le. unfold Double.emax, Double.prec. lia.
Qed.

End Binary64.

Section Conversions.

Lemma of_int_nonzero (z : Z) :
  z <> 0 -> Z.abs z < 2 ^ 53 ->
  exists m e,
    Double.of_int z = S754_finite (z <? 0) m e /\
    digits2_pos m = 53%positive /\ -52 <= e <= 0 /\
    Z.pos m = Z.abs z * 2 ^ (- e).
Proof.
  intros Hz Hb. destruct z as [|p|p]; [contradiction| |].
  - destruct (of_int_pos p Hb) as (m & e & Hpos & _ & Hd & He & Hm).
    exists m, e. unfold Double.of_int, binary_normalize.
    cbn [Z.ltb Z.compare Z.abs]. repeat split; assumption || lia.
  - destruct (of_int_pos p Hb) as (m & e & _ & Hneg & Hd & He & Hm).
    exists m, e. unfold Double.of_int, binary_normalize.
    cbn [Z.ltb Z.compare Z.abs]. repeat split; assumption || lia.
Qed.

(** An [int] survives the conversion to [double] and back. *)
Lemma to_int_of_int (z : Z) :
  Int.in_range z = true -> Double.to_int (Double.of_int z) = Some z.
Proof.
  intros Hr.
  assert (Hb : Int.INT_MIN <= z <= Int.INT_MAX).
  { unfold Int.in_range in Hr. apply andb_true_iff in Hr.
    destruct Hr as [H1 H2]. apply Z.leb_le in H1, H2. lia. }
  unfold Int.INT_MIN, Int.INT_MAX in Hb.
  destruct (Z.eq_dec z 0) as [-> | Hz]; [vm_compute; reflexivity|].
  destruct (of_int_nonzero z Hz) as (m & e & Hof & Hd & He & Hm); [lia|].
  rewrite Hof.
  destruct (Z.ltb_spec z 0) as [Hneg | Hpos].
  - pose proof (to_int_finite true m e (Z.abs z) He Hm) as H.
    cbv iota in H. replace (- Z.abs z) with z in H by lia. exact (H Hr).
  - pose proof (to_int_finite false m e (Z.abs z) He Hm) as H.
    cbv iota in H. replace (Z.abs z) with z in H by lia. exact (H Hr).
Qed.

Lemma filled_when_full (w : Z) :
  Int.in_range w = true ->
  Double.to_int (Double.mul (Double.of_int 1) (Double.of_int w)) = Some w.
Proof.
  intros Hr.
  assert (Hb : Int.INT_MIN <= w <= Int.INT_MAX).
  { unfold Int.in_range in Hr. apply andb_true_iff in Hr.
    destruct Hr as [H1 H2]. apply Z.leb_le in H1, H2. lia. }
  unfold Int.INT_MIN, Int.INT_MAX in Hb.
  destruct (Z.eq_dec w 0) as [-> | Hw]; [vm_compute; reflexivity|].
  destruct (of_int_nonzero w Hw) as (m & e & Hof & Hd & He & Hm); [lia|].
  rewrite <- (to_int_of_int w Hr). rewrite Hof.
  now rewrite mul_one by (assumption || lia).
Qed.

Lemma filled_when_zero (s : bool) (w : Z) :
  Z.abs w < 2 ^ 53 ->
  Double.to_int (Double.mul (S754_zero s) (Double.of_int w)) = Some 0.
Proof.
  intros Hb. destruct (Z.eq_dec w 0) as [-> | Hw]; [vm_compute; reflexivity|].
  destruct (of_int_nonzero w Hw Hb) as (m & e & Hof & _).
  rewrite Hof. reflexivity.
Qed.

Lemma progress_full (max : Z) :
  max <> 0 -> Z.abs max < 2 ^ 53 ->
  Double.div (Double.of_int max) (Double.of_int max) = Double.of_int 1.
Proof.
  intros Hz Hb.
  destruct (of_int_nonzero max Hz Hb) as (m & e & Hof & Hd & _).
  rewrite Hof. now apply div_self.
Qed.

Lemma progress_zero (max : Z) :
  max <> 0 -> Z.abs max < 2 ^ 53 ->
  Double.div (Double.of_int 0) (Double.of_int max) = S754_zero (max <? 0).
Proof.
  intros Hz Hb.
  destruct (of_int_nonzero max Hz Hb) as (m & e & Hof & _).
  rewrite Hof. reflexivity.
Qed.

Lemma percentage_full :
  Double.to_int (Double.mul (Double.of_int 1) (Double.of_int 100)) = Some 100.
Proof. vm_compute; reflexivity. Qed.

Lemma percentage_zero (s : bool) :
  Double.to_int (Double.mul (S754_zero s) (Double.of_int 100)) = Some 0.
Proof. destruct s; vm_compute; reflexivity. Qed.

End Conversions.

Lemma in_range_bounds (z : Z) :
  Int.INT_MIN <= z <= Int.INT_MAX -> Int.in_range z = true.
Proof.
  intros [Hlow Hhigh]. unfold Int.in_range.
  apply andb_true_iff. split; now apply Z.leb_le.
Qed.

Lemma int_abs_small (z : Z) :
  Int.INT_MIN <= z <= Int.INT_MAX -> Z.abs z < 2 ^ 53.
Proof. unfold Int.INT_MIN, Int.INT_MAX. lia. Qed.

Lemma sub_self (w : Z) : Int.sub w w = Some 0.
Proof. unfold Int.sub. rewrite Z.sub_diag. reflexivity. Qed.

Lemma sub_zero (w : Z) :
  Int.INT_MIN <= w <= Int.INT_MAX -> Int.sub w 0 = Some w.
Proof.
  intros Hw. unfold Int.sub. rewrite Z.sub_0_r.
  now rewrite in_range_bounds.
Qed.

(** X1: a current value at or above a positive maximum gives a bar of
    [w] filled characters, no unfilled one, and 100%. *)
Theorem ProgressBar_full (c max w : Z)
    (barColor : string) (showPercentage : bool) (percentColor : string) :
  0 < max <= Int.INT_MAX -> max <= c ->
  Int.INT_MIN <= w <= Int.INT_MAX ->
  ProgressBar c max w barColor showPercentage percentColor =
  Some (barColor ++ replicate (Z.to_nat w) "#" ++ Color.RESET ++
        (if showPercentage
         then " " ++ percentColor ++ "100%" ++ Color.RESET else "")).
Proof.
  intros Hmax Hc Hw.
  assert (Hmax' : Z.abs max < 2 ^ 53) by (unfold Int.INT_MAX in Hmax; lia).
  assert (Hclamp :
    (if (if c >? max then max else c) <? 0 then 0
     else if c >? max then max else c) = max).
  { destruct (Z.eq_dec c max) as [-> | Hne].
    - rewrite gtb_false by lia. now rewrite (proj2 (Z.ltb_ge max 0)) by lia.
    - rewrite gtb_true by lia. now rewrite (proj2 (Z.ltb_ge max 0)) by lia. }
  unfold ProgressBar. cbv zeta. rewrite Hclamp.
  rewrite progress_full by lia.
  rewrite filled_when_full by now apply in_range_bounds.
  rewrite sub_self. unfold push_back.
  rewrite !for_lt_replicate. change (Z.to_nat 0) with O. cbn [replicate].
  destruct showPercentage.
  - rewrite percentage_full. f_equal.
    change (to_string 100) with "100".
    rewrite ?append_assoc, ?append_nil_r. reflexivity.
  - f_equal. rewrite ?append_assoc, ?append_nil_r. reflexivity.
Qed.

Section ProgressEndpoints.

Lemma ProgressBar_clamp_to_zero (c max : Z) :
  c <= 0 \/ max < 0 ->
  (if (if c >? max then max else c) <? 0 then 0
   else if c >? max then max else c) = 0.
Proof.
  intros H.
  destruct (Z.gtb_spec c max), (Z.ltb_spec c 0), (Z.ltb_spec max 0);
    try reflexivity; lia.
Qed.

Lemma AdvancedProgressBar_clamp (c max : Z) :
  (if (if c <? 0 then 0 else c) >? max then max
   else if c <? 0 then 0 else c) = Z.min (Z.max c 0) max.
Proof.
  destruct (Z.ltb_spec c 0).
  - destruct (Z.gtb_spec 0 max); lia.
  - destruct (Z.gtb_spec c max); lia.
Qed.

(** X2: with a maximum other than zero, a current value of zero or less
    gives a bar of [w] unfilled characters and 0%; so does every current
    value when the maximum is negative, the test against the maximum
    coming before the test against zero. *)
Theorem ProgressBar_empty (c max w : Z)
    (barColor : string) (showPercentage : bool) (percentColor : string) :
  max <> 0 -> Int.INT_MIN <= max <= Int.INT_MAX ->
  c <= 0 \/ max < 0 ->
  Int.INT_MIN <= w <= Int.INT_MAX ->
  ProgressBar c max w barColor showPercentage percentColor =
  Some (barColor ++ replicate (Z.to_nat w) "-" ++ Color.RESET ++
        (if showPercentage
         then " " ++ percentColor ++ "0%" ++ Color.RESET else "")).
Proof.
  intros Hnz Hmax Hc Hw.
  unfold ProgressBar. cbv zeta. rewrite ProgressBar_clamp_to_zero by exact Hc.
  rewrite progress_zero by (try apply int_abs_small; assumption).
  rewrite filled_when_zero by now apply int_abs_small.
  rewrite sub_zero by exact Hw. unfold push_back.
  rewrite !for_lt_replicate. change (Z.to_nat 0) with O. cbn [replicate].
  destruct showPercentage.
  - rewrite percentage_zero. f_equal. change (to_string 0) with "0".
    rewrite ?append_assoc, ?append_nil_r. reflexivity.
  - f_equal. rewrite ?append_assoc, ?append_nil_r. reflexivity.
Qed.

End ProgressEndpoints.

Ltac finish_bar :=
  unfold push_back, bar_layout;
  rewrite !for_lt_replicate;
  repeat match goal with
         | |- context [empty ?s] => is_var s; destruct s
         | |- context [if ?b then _ else _] => is_var b; destruct b
         end;
  cbn [empty negb]; f_equal;
  rewrite ?append_assoc, ?append_nil_r; cbn [append];
  rewrite ?append_assoc, ?append_nil_r; reflexivity.

Section AdvancedEndpoints.

Variables (prefixText suffixText fillChar unfillChar fillColor unfillColor
  textColor prefixColor suffixColor bracketColor : string)
  (showPercentage showBrackets resetOnCompletion : bool).

(** X4: with a maximum of zero [AdvancedProgressBar] takes the fraction to
    be zero: nothing is filled, [w] characters are unfilled and the
    percentage is 0, whatever the current value. *)
Theorem AdvancedProgressBar_guarded_zero_max (c w : Z) :
  Int.INT_MIN <= w <= Int.INT_MAX ->
  AdvancedProgressBar c 0 w prefixText suffixText fillChar unfillChar
    fillColor unfillColor textColor prefixColor suffixColor bracketColor
    showPercentage showBrackets resetOnCompletion =
  Some (bar_layout 0 w "0" prefixText suffixText fillChar unfillChar
          fillColor unfillColor textColor prefixColor suffixColor bracketColor
          showPercentage showBrackets resetOnCompletion).
Proof.
  intros Hw. unfold AdvancedProgressBar. cbv zeta.
  change (negb (0 =? 0)) with false. cbv iota. unfold Double.zero.
  rewrite filled_when_zero by now apply int_abs_small.
  rewrite sub_zero by exact Hw. rewrite percentage_zero.
  change (to_string 0) with "0". change (Z.to_nat 0) with O.
  finish_bar.
Qed.

(** X5: with a maximum other than zero, a current value at or above the
    maximum gives [w] filled characters and 100%; so does every current
    value when the maximum is negative, the test against zero coming
    before the test against the maximum. *)
Theorem AdvancedProgressBar_full (c max w : Z) :
  max <> 0 -> Int.INT_MIN <= max <= Int.INT_MAX ->
  max <= c \/ max < 0 ->
  Int.INT_MIN <= w <= Int.INT_MAX ->
  AdvancedProgressBar c max w prefixText suffixText fillChar unfillChar
    fillColor unfillColor textColor prefixColor suffixColor bracketColor
    showPercentage showBrackets resetOnCompletion =
  Some (bar_layout w 0 "100" prefixText suffixText fillChar unfillChar
          fillColor unfillColor textColor prefixColor suffixColor bracketColor
          showPercentage showBrackets resetOnCompletion).
Proof.
  intros Hnz Hmax Hc Hw. unfold AdvancedProgressBar. cbv zeta.
  rewrite AdvancedProgressBar_clamp.
  replace (Z.min (Z.max c 0) max) with max by lia.
  replace (max =? 0) with false by (symmetry; now apply Z.eqb_neq).
  cbn [negb]. rewrite progress_full by (try apply int_abs_small; assumption).
  rewrite filled_when_full by now apply in_range_bounds.
  rewrite sub_self, percentage_full.
  change (to_string 100) with "100".
  finish_bar.
Qed.

(** X6: with a positive maximum, a current value of zero or less gives
    [w] unfilled characters and 0%. *)
Theorem AdvancedProgressBar_empty (c max w : Z) :
  0 < max <= Int.INT_MAX -> c <= 0 ->
  Int.INT_MIN <= w <= Int.INT_MAX ->
  AdvancedProgressBar c max w prefixText suffixText fillChar unfillChar
    fillColor unfillColor textColor prefixColor suffixColor bracketColor
    showPercentage showBrackets resetOnCompletion =
  Some (bar_layout 0 w "0" prefixText suffixText fillChar unfillChar
          fillColor unfillColor textColor prefixColor suffixColor bracketColor
          showPercentage showBrackets resetOnCompletion).
Proof.
  intros Hmax Hc Hw. unfold AdvancedProgressBar. cbv zeta.
  rewrite AdvancedProgressBar_clamp.
  replace (Z.min (Z.max c 0) max) with 0 by lia.
  replace (max =? 0) with false by (symmetry; apply Z.eqb_neq; lia).
  cbn [negb].
  rewrite progress_zero by (try apply int_abs_small; unfold Int.INT_MIN; lia).
  rewrite filled_when_zero by now apply int_abs_small.
  rewrite sub_zero by exact Hw. rewrite percentage_zero.
  change (to_string 0) with "0".
  finish_bar.
Qed.

End AdvancedEndpoints.

(** X3: without the percentage and with a positive maximum,
    [ProgressBar] is [AdvancedProgressBar] with no texts, no brackets, the
    characters '#' and '-', the bar colour for the filled part, no colour
    for the unfilled part, and the final reset. *)
Theorem ProgressBar_as_AdvancedProgressBar (c max w : Z)
    (barColor percentColor textColor prefixColor suffixColor
     bracketColor : string) :
  0 < max ->
  ProgressBar c max w barColor false percentColor =
  AdvancedProgressBar c max w "" "" "#" "-" barColor "" textColor
    prefixColor suffixColor bracketColor false false true.
Proof.
  intros Hmax. unfold ProgressBar, AdvancedProgressBar. cbv zeta.
  rewrite AdvancedProgressBar_clamp.
  assert (Hclamp :
    (if (if c >? max then max else c) <? 0 then 0
     else if c >? max then max else c) = Z.min (Z.max c 0) max).
  { destruct (Z.gtb_spec c max), (Z.ltb_spec c 0), (Z.ltb_spec max 0);
      try reflexivity; lia. }
  rewrite Hclamp.
  replace (max =? 0) with false by (symmetry; apply Z.eqb_neq; lia).
  cbn [negb empty].
  destruct (Double.to_int _) as [filledWidth|]; [|reflexivity].
  destruct (Int.sub w filledWidth) as [remainingWidth|]; [|reflexivity].
  unfold push_back. rewrite !for_lt_replicate. f_equal.
  rewrite ?append_assoc, ?append_nil_r. cbn [append]. reflexivity.
Qed.

(** ** Reading the answer *)

Section Stoi.

Lemma skip_spaces_blank (ws s : string) :
  blank ws = true -> skip_spaces (ws ++ s) = skip_spaces s.
Proof.
  unfold blank. induction ws as [|c ws IH]; cbn; [reflexivity|].
  intros H. apply andb_true_iff in H. destruct H as [Hc Hws].
  rewrite Hc. now apply IH.
Qed.

Lemma read_digits_stop (v : Z) (t : string) :
  no_digit_ahead t = true -> read_digits true v t = Some v.
Proof.
  destruct t as [|c t]; cbn; [reflexivity|].
  intros H. apply negb_true_iff in H. now rewrite H.
Qed.

Lemma read_digits_uint_acc (d : Decimal.uint) :
  forall (seen : bool) (acc : positive) (t : string),
    read_digits seen (Z.pos acc) (NilEmpty.string_of_uint d ++ t) =
    read_digits (match d with Decimal.Nil => seen | _ => true end)
      (Z.pos (Pos.of_uint_acc d acc)) t.
Proof.
  induction d as [|d IH|d IH|d IH|d IH|d IH|d IH|d IH|d IH|d IH|d IH];
    intros seen acc t; [reflexivity|..];
    cbn [NilEmpty.string_of_uint append read_digits Pos.of_uint_acc];
    change (isdigit _) with true; cbv iota;
    match goal with
    | |- read_digits true ?a _ = read_digits _ (Z.pos (Pos.of_uint_acc d ?acc')) t =>
        replace a with (Z.pos acc')
          by (match goal with
              | |- context [nat_of_ascii ?c] =>
                  let n := eval vm_compute in (Z.of_nat (nat_of_ascii c) - 48) in
                  change (Z.of_nat (nat_of_ascii c) - 48) with n
              end; lia)
    end;
    rewrite IH; destruct d; reflexivity.
Qed.

Lemma read_digits_uint (d : Decimal.uint) :
  forall (seen : bool) (t : string),
    read_digits seen 0 (NilEmpty.string_of_uint d ++ t) =
    read_digits (match d with Decimal.Nil => seen | _ => true end)
      (Z.of_N (Pos.of_uint d)) t.
Proof.
  induction d as [|d IH|d|d|d|d|d|d|d|d|d]; intros seen t; [reflexivity|..];
    cbn [NilEmpty.string_of_uint append read_digits Pos.of_uint];
    change (isdigit _) with true; cbv iota.
  - change (10 * 0 + (Z.of_nat (nat_of_ascii "0") - 48)) with 0.
    rewrite IH. destruct d; reflexivity.
  - change (10 * 0 + (Z.of_nat (nat_of_ascii "1") - 48)) with (Z.pos 1).
    rewrite read_digits_uint_acc. destruct d; reflexivity.
  - change (10 * 0 + (Z.of_nat (nat_of_ascii "2") - 48)) with (Z.pos 2).
    rewrite read_digits_uint_acc. destruct d; reflexivity.
  - change (10 * 0 + (Z.of_nat (nat_of_ascii "3") - 48)) with (Z.pos 3).
    rewrite read_digits_uint_acc. destruct d; reflexivity.
  - change (10 * 0 + (Z.of_nat (nat_of_ascii "4") - 48)) with (Z.pos 4).
    rewrite read_digits_uint_acc. destruct d; reflexivity.
  - change (10 * 0 + (Z.of_nat (nat_of_ascii "5") - 48)) with (Z.pos 5).
    rewrite read_digits_uint_acc. destruct d; reflexivity.
  - change (10 * 0 + (Z.of_nat (nat_of_ascii "6") - 48)) with (Z.pos 6).
    rewrite read_digits_uint_acc. destruct d; reflexivity.
  - change (10 * 0 + (Z.of_nat (nat_of_ascii "7") - 48)) with (Z.pos 7).
    rewrite read_digits_uint_acc. destruct d; reflexivity.
  - change (10 * 0 + (Z.of_nat (nat_of_ascii "8") - 48)) with (Z.pos 8).
    rewrite read_digits_uint_acc. destruct d; reflexivity.
  - change (10 * 0 + (Z.of_nat (nat_of_ascii "9") - 48)) with (Z.pos 9).
    rewrite read_digits_uint_acc. destruct d; reflexivity.
Qed.

(** The decimal text of a positive number starts with a digit: [stoi]
    skips nothing and sees no sign. *)
Lemma stoi_unsigned (d : Decimal.uint) (t : string) :
  d <> Decimal.Nil ->
  stoi (NilEmpty.string_of_uint d ++ t) =
  match read_digits false 0 (NilEmpty.string_of_uint d ++ t) with
  | None => invalid_argument
  | Some value => if Int.in_range value then Parsed value else out_of_range
  end.
Proof.
  intros Hd. destruct d; [contradiction|..]; reflexivity.
Qed.

(** The text that [to_string] gives for a positive [int], with blanks in
    front and anything but a digit behind, is read back as that [int]. *)
Lemma stoi_to_string (k : Z) (ws t : string) :
  0 < k <= Int.INT_MAX ->
  blank ws = true -> no_digit_ahead t = true ->
  stoi (ws ++ to_string k ++ t) = Parsed k.
Proof.
  intros Hk Hws Ht. destruct k as [|p|p]; try lia.
  assert (Hnil : Pos.to_uint p <> Decimal.Nil) by apply Unsigned.to_uint_nonnil.
  assert (Htext : to_string (Z.pos p) = NilEmpty.string_of_uint (Pos.to_uint p)).
  { unfold to_string. cbn [Z.to_int NilZero.string_of_int].
    unfold NilZero.string_of_uint. destruct (Pos.to_uint p); [contradiction|..];
      reflexivity. }
  rewrite Htext.
  assert (Hskip : skip_spaces (ws ++ NilEmpty.string_of_uint (Pos.to_uint p) ++ t)
                  = skip_spaces (NilEmpty.string_of_uint (Pos.to_uint p) ++ t))
    by now apply skip_spaces_blank.
  assert (Hstoi : stoi (ws ++ NilEmpty.string_of_uint (Pos.to_uint p) ++ t)
                  = stoi (NilEmpty.string_of_uint (Pos.to_uint p) ++ t)).
  { unfold stoi. now rewrite Hskip. }
  rewrite Hstoi, stoi_unsigned by exact Hnil.
  rewrite read_digits_uint, Unsigned.of_to.
  replace (match Pos.to_uint p with Decimal.Nil => false | _ => true end)
    with true by (destruct (Pos.to_uint p); [contradiction|..]; reflexivity).
  rewrite read_digits_stop by exact Ht. cbn [Z.of_N].
  replace (Int.in_range (Z.pos p)) with true; [reflexivity|].
  symmetry. unfold Int.in_range. apply andb_true_iff.
  split; apply Z.leb_le; unfold Int.INT_MIN; lia.
Qed.

End Stoi.

(** ** The menu, line by line *)

Section MenuScreen.

Variables separator promptMessage inputQuestionText messageColor numberColor
  separatorColor optionColor inputQuestionColor errorColor : string.

Lemma print_options_from (rest : list string) :
  forall (done : list string) (w : World),
    for_lt (Z.of_nat (List.length done))
      (Z.of_nat (List.length (done ++ rest)))
      (fun i w => snd ((
         cout_put numberColor ;; cout_put (to_string (i + 1)) ;;
         cout_put separatorColor ;; cout_put separator ;;
         cout_put optionColor ;; cout_put (nth (Z.to_nat i) (done ++ rest) "") ;;
         cout_put Color.RESET ;; cout_put newline) w)) w =
    mkWorld (cin w)
      (cout w ++ menu_lines numberColor separatorColor separator optionColor
                   (Z.of_nat (List.length done) + 1) rest)
      (cerr w).
Proof.
  induction rest as [|o rest IH]; intros done w.
  - rewrite List.app_nil_r, for_lt_done by lia. cbn [menu_lines].
    rewrite append_nil_r. now destruct w.
  - rewrite for_lt_step by (rewrite List.length_app; cbn [List.length]; lia).
    replace (done ++ o :: rest)%list with ((done ++ [o]) ++ rest)%list
      by (now rewrite <- List.app_assoc).
    replace (Z.of_nat (List.length done) + 1)
      with (Z.of_nat (List.length (done ++ [o])))
      by (rewrite List.length_app; cbn [List.length]; lia).
    rewrite IH. cbn [cin cout cerr snd bind cout_put menu_lines].
    f_equal. rewrite Nat2Z.id.
    replace (nth (List.length done) ((done ++ [o]) ++ rest) "") with o
      by (rewrite <- List.app_assoc; cbn [List.app];
          now rewrite List.nth_middle).
    replace (Z.of_nat (List.length (done ++ [o])))
      with (Z.of_nat (List.length done) + 1)
      by (rewrite List.length_app; cbn [List.length]; lia).
    rewrite !append_assoc. reflexivity.
Qed.

(** The whole behaviour of the menu on a non-empty list of options. *)
Lemma PromptNumberedMenu_run (Options : list string) (w : World) :
  Options <> [] ->
  PromptNumberedMenu Options separator promptMessage inputQuestionText
    messageColor numberColor separatorColor optionColor inputQuestionColor
    errorColor w =
  let size := Z.of_nat (List.length Options) in
  let shown :=
    cout w ++ menu_screen Options separator promptMessage inputQuestionText
                messageColor numberColor separatorColor optionColor
                inputQuestionColor in
  match cin w with
  | [] =>
      (-1, mkWorld [] (shown ++ errorColor ++ Color.RESET)
             (cerr w ++ "Input error. Exiting." ++ newline))
  | line :: rest =>
      match stoi line with
      | Parsed choice =>
          if (choice <? 1) || (choice >? Int.of_size_t size)
          then (-1, mkWorld rest
                      (shown ++ errorColor ++
                       "Invalid choice. Please enter a number between 1 and " ++
                       to_string size ++ "." ++ newline ++ newline ++
                       Color.RESET ++ Color.RESET)
                      (cerr w))
          else (choice - 1, mkWorld rest (shown ++ Color.RESET) (cerr w))
      | invalid_argument =>
          (-1, mkWorld rest
                 (shown ++ errorColor ++
                  "Invalid input. Please enter a numeric value." ++
                  newline ++ newline ++ Color.RESET ++ Color.RESET)
                 (cerr w))
      | out_of_range =>
          (-1, mkWorld rest
                 (shown ++ errorColor ++
                  "The number you entered is out of range. Please try again." ++
                  newline ++ newline ++ Color.RESET ++ Color.RESET)
                 (cerr w))
      end
  end.
Proof.
  intros Hne. destruct Options as [|o os]; [contradiction|].
  cbv zeta. unfold PromptNumberedMenu. cbn [vector_empty].
  repeat (rewrite bind_cout_put; cbv beta).
  rewrite bind_for_each_index. unfold for_each_index. cbn [snd].
  pose proof (print_options_from (o :: os) []) as Hprint.
  cbn [List.app List.length Z.of_nat] in Hprint.
  change (Z.of_nat 0) with 0 in Hprint.
  cbn [List.length]. rewrite Hprint. clear Hprint.
  cbn [cin cout cerr].
  repeat (rewrite bind_cout_put; cbv beta). cbn [cin cout cerr].
  unfold menu_screen.
  destruct w as [input out err]. cbn [cin cout cerr].
  destruct input as [|line rest].
  - unfold bind, getline, cout_put, cerr_put, ret. cbn [cin cout cerr].
    f_equal. f_equal. rewrite !append_assoc. reflexivity.
  - rewrite bind_getline_line. unfold bind at 1.
    destruct (stoi line) as [k| |];
      [destruct ((k <? 1) || (k >? _))|..];
      unfold bind, cout_put, ret; cbn [cin cout cerr];
      f_equal; f_equal; rewrite !append_assoc; reflexivity.
Qed.

End MenuScreen.

Section MenuOutcomes.

Variables separator promptMessage inputQuestionText messageColor numberColor
  separatorColor optionColor inputQuestionColor errorColor : string.

(** X7: when the input is at its end, the menu is still printed in full;
    the call then writes the error colour and the reset to the output,
    its complaint to the error stream, and returns -1. *)
Theorem PromptNumberedMenu_end_of_input (Options : list string)
    (out err : string) :
  Options <> [] ->
  PromptNumberedMenu Options separator promptMessage inputQuestionText
    messageColor numberColor separatorColor optionColor inputQuestionColor
    errorColor (mkWorld [] out err) =
  (-1,
   mkWorld []
     (out ++
      menu_screen Options separator promptMessage inputQuestionText
        messageColor numberColor separatorColor optionColor inputQuestionColor ++
      errorColor ++ Color.RESET)
     (err ++ "Input error. Exiting." ++ newline)).
Proof.
  intros Hne. rewrite PromptNumberedMenu_run by exact Hne.
  cbn [cin cout cerr]. now rewrite !append_assoc.
Qed.

Lemma in_range_choice (size k : Z) :
  0 <= size <= Int.INT_MAX ->
  (k <? 1) || (k >? Int.of_size_t size) = negb ((1 <=? k) && (k <=? size)).
Proof.
  intros Hsize. rewrite of_size_t_small by exact Hsize.
  rewrite Z.gtb_ltb.
  destruct (Z.ltb_spec k 1), (Z.ltb_spec size k), (Z.leb_spec 1 k),
    (Z.leb_spec k size); try reflexivity; lia.
Qed.

(** A line from which [stoi] reads a number of the list is accepted. *)
Lemma menu_accepts (Options : list string)
    (line : string) (rest : list string) (out err : string) (k : Z) :
  Z.of_nat (List.length Options) <= Int.INT_MAX ->
  stoi line = Parsed k ->
  1 <= k <= Z.of_nat (List.length Options) ->
  PromptNumberedMenu Options separator promptMessage inputQuestionText
    messageColor numberColor separatorColor optionColor inputQuestionColor
    errorColor (mkWorld (line :: rest) out err) =
  (k - 1,
   mkWorld rest
     (out ++
      menu_screen Options separator promptMessage inputQuestionText
        messageColor numberColor separatorColor optionColor inputQuestionColor ++
      Color.RESET)
     err).
Proof.
  intros Hsize Hline Hk.
  assert (Hne : Options <> []) by (destruct Options; [cbn in Hk; lia | discriminate]).
  rewrite PromptNumberedMenu_run by exact Hne.
  cbn [cin cout cerr]. cbv zeta. rewrite Hline.
  rewrite in_range_choice by lia.
  replace ((1 <=? k) && (k <=? Z.of_nat (List.length Options))) with true
    by (symmetry; apply andb_true_iff; split; apply Z.leb_le; lia).
  cbn [negb]. now rewrite !append_assoc.
Qed.

(** X8: the number printed in front of an option selects that option.  A
    line made of blanks, the decimal text of [k] and a tail that does not
    go on with a digit returns [k - 1]; the output is the menu followed by
    the reset, the line is consumed and the error stream is untouched. *)
Theorem PromptNumberedMenu_typed_number (Options : list string)
    (ws tail : string) (rest : list string) (out err : string) (k : Z) :
  Z.of_nat (List.length Options) <= Int.INT_MAX ->
  1 <= k <= Z.of_nat (List.length Options) ->
  blank ws = true -> no_digit_ahead tail = true ->
  PromptNumberedMenu Options separator promptMessage inputQuestionText
    messageColor numberColor separatorColor optionColor inputQuestionColor
    errorColor (mkWorld ((ws ++ to_string k ++ tail) :: rest) out err) =
  (k - 1,
   mkWorld rest
     (out ++
      menu_screen Options separator promptMessage inputQuestionText
        messageColor numberColor separatorColor optionColor inputQuestionColor ++
      Color.RESET)
     err).
Proof.
  intros Hsize Hk Hws Htail.
  apply menu_accepts; [exact Hsize | | exact Hk].
  apply stoi_to_string; [lia | exact Hws | exact Htail].
Qed.

(** X9: whatever the options and the input, the result is -1 or an index
    of the list of options. *)
Theorem PromptNumberedMenu_result_range (Options : list string) (w : World) :
  Z.of_nat (List.length Options) <= Int.INT_MAX ->
  let result :=
    fst (PromptNumberedMenu Options separator promptMessage inputQuestionText
           messageColor numberColor separatorColor optionColor
           inputQuestionColor errorColor w) in
  result = -1 \/ 0 <= result < Z.of_nat (List.length Options).
Proof.
  intros Hsize result. subst result.
  destruct Options as [|o os]; [left; reflexivity|].
  rewrite PromptNumberedMenu_run by discriminate.
  cbv zeta. destruct (cin w) as [|line rest]; [left; reflexivity|].
  destruct (stoi line) as [k| |]; try (left; reflexivity).
  rewrite in_range_choice by lia.
  destruct (Z.leb_spec 1 k), (Z.leb_spec k (Z.of_nat (List.length (o :: os))));
    cbn [andb negb fst]; try (left; reflexivity).
  right. lia.
Qed.

(** X10: [PauseConsole] prints its message and a line end and discards
    the line that is pending, whatever was typed on it; a menu that
    follows reads its answer from the next line. *)
Theorem PauseConsole_then_menu (message typed : string)
    (Options : list string) (ws tail : string) (rest : list string)
    (out err : string) (k : Z) :
  Z.of_nat (List.length Options) <= Int.INT_MAX ->
  1 <= k <= Z.of_nat (List.length Options) ->
  blank ws = true -> no_digit_ahead tail = true ->
  (PauseConsole message ;;
   PromptNumberedMenu Options separator promptMessage inputQuestionText
     messageColor numberColor separatorColor optionColor inputQuestionColor
     errorColor)
    (mkWorld (typed :: (ws ++ to_string k ++ tail) :: rest) out err) =
  (k - 1,
   mkWorld rest
     (out ++ message ++ newline ++
      menu_screen Options separator promptMessage inputQuestionText
        messageColor numberColor separatorColor optionColor inputQuestionColor ++
      Color.RESET)
     err).
Proof.
  intros Hsize Hk Hws Htail.
  unfold PauseConsole, cin_ignore_line, bind, cout_put.
  cbn [cin cout cerr List.tl].
  rewrite (menu_accepts Options _ rest _ err k Hsize);
    [now rewrite !append_assoc | | exact Hk].
  apply stoi_to_string; [lia | exact Hws | exact Htail].
Qed.

End MenuOutcomes.

(** ** The other string builders *)

Section Builders.

Lemma replicate_add (a b : nat) (s : string) :
  replicate (a + b) s = replicate a s ++ replicate b s.
Proof.
  induction a as [|a IH]; cbn [replicate Nat.add append]; [reflexivity|].
  now rewrite IH, append_assoc.
Qed.

Lemma length_append (s t : string) :
  String.length (s ++ t) = (String.length s + String.length t)%nat.
Proof. induction s as [|c s IH]; cbn; [reflexivity | now rewrite IH]. Qed.

Lemma length_replicate (n : nat) (s : string) :
  String.length (replicate n s) = (n * String.length s)%nat.
Proof.
  induction n as [|n IH]; cbn [replicate]; [reflexivity|].
  rewrite length_append, IH. reflexivity.
Qed.

(** X11: for counts that are not negative, two spacings in a row are the
    spacing of the sum of the counts. *)
Theorem Spacing_add (a b : Z) :
  0 <= a -> 0 <= b -> Spacing (a + b) = Spacing a ++ Spacing b.
Proof.
  intros Ha Hb. unfold Spacing. rewrite !for_lt_replicate. cbn [append].
  rewrite Z2Nat.inj_add by lia. apply replicate_add.
Qed.

(** X12: in [AdvancedHeader] a count below zero gives what a count of
    zero gives, on either side. *)
Theorem AdvancedHeader_negative_counts (leftChar : string) (leftCount : Z)
    (rightChar : string) (rightCount : Z)
    (text spaceChar leftColor rightColor textColor spaceColor : string)
    (resetOnEnd : bool) :
  AdvancedHeader leftChar leftCount rightChar rightCount text spaceChar
    leftColor rightColor textColor spaceColor resetOnEnd =
  AdvancedHeader leftChar (Z.max leftCount 0) rightChar (Z.max rightCount 0)
    text spaceChar leftColor rightColor textColor spaceColor resetOnEnd.
Proof.
  unfold AdvancedHeader. rewrite !for_lt_replicate.
  replace (Z.to_nat (Z.max leftCount 0)) with (Z.to_nat leftCount) by lia.
  replace (Z.to_nat (Z.max rightCount 0)) with (Z.to_nat rightCount) by lia.
  reflexivity.
Qed.

(** X13: the length of a header: twice the line colour, the line segment,
    the spacing colour and the spacing character, then the text colour,
    the text and the four characters of the reset sequence. *)
Theorem Header_length (lineChar : string) (lineCount : Z)
    (text spaceChar lineColor textColor spaceColor : string) :
  String.length
    (Header lineChar lineCount text spaceChar lineColor textColor spaceColor) =
  (2 * (String.length lineColor + Z.to_nat lineCount * String.length lineChar
        + String.length spaceColor + String.length spaceChar)
   + String.length textColor + String.length text + 4)%nat.
Proof.
  unfold Header. rewrite for_lt_replicate. cbn [append].
  rewrite !length_append, !length_replicate.
  change (String.length Color.RESET) with 4%nat. lia.
Qed.

(** X14: [Notification] returns the left border, the inside and the right
    border in their colours, a blank, the type text, a colon and a blank in
    the inside colour, the text in its colour, and the reset sequence, with
    which it ends. *)
Theorem Notification_layout (leftBorder inside rightBorder typeText text
    borderColor insideColor textColor : string) :
  Notification leftBorder inside rightBorder typeText text
    borderColor insideColor textColor =
  borderColor ++ leftBorder ++ insideColor ++ inside ++
  borderColor ++ rightBorder ++ insideColor ++ " " ++ typeText ++ ": " ++
  textColor ++ text ++ Color.RESET
  /\ ends_with
       (Notification leftBorder inside rightBorder typeText text
          borderColor insideColor textColor)
       Color.RESET.
Proof.
  split.
  - unfold Notification. cbn [append]. now rewrite !append_assoc.
  - unfold Notification. apply ends_with_append.
Qed.

End Builders.

(** ** The classes of answers *)

Section StoiClasses.

Lemma read_digits_none (s : string) :
  no_digit_ahead s = true -> read_digits false 0 s = None.
Proof.
  destruct s as [|c s]; cbn [no_digit_ahead read_digits]; [reflexivity|].
  intros H. apply negb_true_iff in H. now rewrite H.
Qed.

Lemma stoi_after_sign (str : string) :
  stoi str =
  match read_digits false 0 (strip_sign (skip_spaces str)) with
  | None => invalid_argument
  | Some magnitude =>
      let value :=
        match skip_spaces str with
        | String "-"%char _ => - magnitude
        | _ => magnitude
        end in
      if Int.in_range value then Parsed value else out_of_range
  end.
Proof.
  unfold stoi. destruct (skip_spaces str) as [|c rest]; [reflexivity|].
  destruct c as [[] [] [] [] [] [] [] []]; reflexivity.
Qed.

Lemma stoi_no_number (line : string) :
  no_number_ahead line = true -> stoi line = invalid_argument.
Proof.
  unfold no_number_ahead. intros H.
  rewrite stoi_after_sign. now rewrite read_digits_none.
Qed.

Lemma read_whole_number (u : Decimal.uint) :
  u <> Decimal.Nil ->
  read_digits false 0 (NilEmpty.string_of_uint u) = Some (Z.of_uint u).
Proof.
  intros Hu.
  rewrite <- (append_nil_r (NilEmpty.string_of_uint u)), read_digits_uint.
  destruct u; [contradiction|..]; reflexivity.
Qed.

(** [stoi] on a line that is an integer and nothing else: its value, or
    the range error when the value is not an [int]. *)
Lemma stoi_integer_text (line : string) (z : Z) :
  integer_text line = Some z ->
  stoi line = if Int.in_range z then Parsed z else out_of_range.
Proof.
  unfold integer_text. intros H.
  destruct (NilZero.int_of_string line) as [d|] eqn:Hd; [|discriminate].
  injection H as <-. apply NilZero.sis in Hd. subst line.
  destruct d as [u|u]; cbn [NilZero.string_of_int Z.of_int].
  - destruct (Decimal.uint_eq_dec u Decimal.Nil) as [-> | Hu]; [reflexivity|].
    replace (NilZero.string_of_uint u) with (NilEmpty.string_of_uint u)
      by (destruct u; [contradiction|..]; reflexivity).
    rewrite <- (append_nil_r (NilEmpty.string_of_uint u)) at 1.
    rewrite stoi_unsigned by exact Hu.
    rewrite append_nil_r, read_whole_number by exact Hu. reflexivity.
  - destruct (Decimal.uint_eq_dec u Decimal.Nil) as [-> | Hu]; [reflexivity|].
    replace (NilZero.string_of_uint u) with (NilEmpty.string_of_uint u)
      by (destruct u; [contradiction|..]; reflexivity).
    rewrite stoi_after_sign.
    change (skip_spaces (String "-" (NilEmpty.string_of_uint u)))
      with (String "-" (NilEmpty.string_of_uint u)).
    cbn [strip_sign]. rewrite read_whole_number by exact Hu. reflexivity.
Qed.

End StoiClasses.

(** ** One attempt *)

Section MenuSingleAttempt.

Variables separator promptMessage inputQuestionText messageColor numberColor
  separatorColor optionColor inputQuestionColor errorColor : string.

(** C2 (as amended): on a non-empty list of options and with a line to
    read, the prompt and the options are printed and that one line is
    read.  A line that does not start with a number, a line that is an
    integer too large for an [int] and a line that is an integer outside
    [1, size] each get their message on the output and end the call with
    -1: nothing more is read, the lines that follow stay on the input.  A
    line that is an integer [k] within [1, size] ends the call with
    [k - 1]. *)
Theorem PromptNumberedMenu_no_retry (Options : list string)
    (line : string) (rest : list string) (out err : string) :
  Options <> [] ->
  Z.of_nat (List.length Options) <= Int.INT_MAX ->
  let size := Z.of_nat (List.length Options) in
  let shown :=
    out ++ menu_screen Options separator promptMessage inputQuestionText
             messageColor numberColor separatorColor optionColor
             inputQuestionColor in
  let run :=
    PromptNumberedMenu Options separator promptMessage inputQuestionText
      messageColor numberColor separatorColor optionColor inputQuestionColor
      errorColor (mkWorld (line :: rest) out err) in
  (no_number_ahead line = true ->
   run =
   (-1, mkWorld rest
          (shown ++ errorColor ++
           "Invalid input. Please enter a numeric value." ++
           newline ++ newline ++ Color.RESET ++ Color.RESET)
          err))
  /\
  (forall k : Z,
     integer_text line = Some k ->
     (Int.in_range k = false ->
      run =
      (-1, mkWorld rest
             (shown ++ errorColor ++
              "The number you entered is out of range. Please try again." ++
              newline ++ newline ++ Color.RESET ++ Color.RESET)
             err))
     /\
     (Int.in_range k = true -> k < 1 \/ size < k ->
      run =
      (-1, mkWorld rest
             (shown ++ errorColor ++
              "Invalid choice. Please enter a number between 1 and " ++
              to_string size ++ "." ++ newline ++ newline ++
              Color.RESET ++ Color.RESET)
             err))
     /\
     (1 <= k <= size ->
      run = (k - 1, mkWorld rest (shown ++ Color.RESET) err))).
Proof.
  intros Hne Hsize size shown run.
  assert (Hrun := PromptNumberedMenu_run separator promptMessage
                    inputQuestionText messageColor numberColor separatorColor
                    optionColor inputQuestionColor errorColor Options
                    (mkWorld (line :: rest) out err) Hne).
  cbv zeta in Hrun. cbn [cin cout cerr] in Hrun.
  fold size in Hrun. fold shown in Hrun. fold run in Hrun.
  split.
  - intros Hline. rewrite Hrun, (stoi_no_number line Hline). reflexivity.
  - intros k Hline. rewrite (stoi_integer_text line k Hline) in Hrun.
    split; [|split].
    + intros Hbig. rewrite Hrun, Hbig. reflexivity.
    + intros Hint Hout. rewrite Hrun, Hint.
      rewrite in_range_choice by (unfold size; lia).
      replace ((1 <=? k) && (k <=? size)) with false; [reflexivity|].
      symmetry. apply andb_false_iff.
      destruct Hout; [left; apply Z.leb_gt | right; apply Z.leb_gt]; lia.
    + intros Hk. rewrite Hrun.
      replace (Int.in_range k) with true
        by (symmetry; apply in_range_bounds; unfold Int.INT_MIN; lia).
      rewrite in_range_choice by (unfold size; lia).
      replace ((1 <=? k) && (k <=? size)) with true; [reflexivity|].
      symmetry. apply andb_true_iff. split; apply Z.leb_le; lia.
Qed.

End MenuSingleAttempt.

(** ** The layout of the advanced bar *)

(** C5: [AdvancedProgressBar] returns the pieces of [bar_layout] for the
    segment lengths and the percentage it computes.  The prefix colour and
    the prefix text are written when the prefix text is not empty, a blank,
    the suffix colour and the suffix text when the suffix text is not
    empty; with empty texts the result starts with the opening bracket or
    the fill colour and ends with the percentage, the closing bracket or
    the unfilled part (and the reset when asked for): no prefix colour, no
    suffix colour and no blank for them. *)
Theorem AdvancedProgressBar_layout (current max width : Z)
    (prefixText suffixText fillChar unfillChar fillColor unfillColor
     textColor prefixColor suffixColor bracketColor : string)
    (showPercentage showBrackets resetOnCompletion : bool) :
  AdvancedProgressBar current max width prefixText suffixText
    fillChar unfillChar fillColor unfillColor textColor
    prefixColor suffixColor bracketColor
    showPercentage showBrackets resetOnCompletion =
  (filled <-? Double.to_int
                (Double.mul (progress_fraction current max) (Double.of_int width));
   unfilled <-? Int.sub width filled;
   percentage <-?
     (if showPercentage
      then option_map to_string
             (Double.to_int
                (Double.mul (progress_fraction current max) (Double.of_int 100)))
      else Some "");
   Some (bar_layout filled unfilled percentage prefixText suffixText
           fillChar unfillChar fillColor unfillColor textColor
           prefixColor suffixColor bracketColor
           showPercentage showBrackets resetOnCompletion))
  /\
  AdvancedProgressBar current max width "" ""
    fillChar unfillChar fillColor unfillColor textColor
    prefixColor suffixColor bracketColor
    showPercentage showBrackets resetOnCompletion =
  (filled <-? Double.to_int
                (Double.mul (progress_fraction current max) (Double.of_int width));
   unfilled <-? Int.sub width filled;
   percentage <-?
     (if showPercentage
      then option_map to_string
             (Double.to_int
                (Double.mul (progress_fraction current max) (Double.of_int 100)))
      else Some "");
   Some ((if showBrackets then bracketColor ++ "[" else "") ++
         fillColor ++ replicate (Z.to_nat filled) fillChar ++
         unfillColor ++ replicate (Z.to_nat unfilled) unfillChar ++
         (if showBrackets then bracketColor ++ "]" else "") ++
         (if showPercentage then textColor ++ " " ++ percentage ++ "%" else "") ++
         (if resetOnCompletion then Color.RESET else ""))).
Proof.
  assert (Hlayout : forall prefixText suffixText,
    AdvancedProgressBar current max width prefixText suffixText
      fillChar unfillChar fillColor unfillColor textColor
      prefixColor suffixColor bracketColor
      showPercentage showBrackets resetOnCompletion =
    (filled <-? Double.to_int
                  (Double.mul (progress_fraction current max) (Double.of_int width));
     unfilled <-? Int.sub width filled;
     percentage <-?
       (if showPercentage
        then option_map to_string
               (Double.to_int
                  (Double.mul (progress_fraction current max) (Double.of_int 100)))
        else Some "");
     Some (bar_layout filled unfilled percentage prefixText suffixText
             fillChar unfillChar fillColor unfillColor textColor
             prefixColor suffixColor bracketColor
             showPercentage showBrackets resetOnCompletion))).
  { intros pre suf. unfold AdvancedProgressBar, progress_fraction. cbv zeta.
    destruct (Double.to_int (Double.mul _ (Double.of_int width)))
      as [filled|]; [|reflexivity].
    destruct (Int.sub width filled) as [unfilled|]; [|reflexivity].
    destruct showPercentage.
    - destruct (Double.to_int (Double.mul _ (Double.of_int 100)))
        as [percentage|]; [|reflexivity].
      cbn [option_map]. finish_bar.
    - finish_bar. }
  split; [apply Hlayout|].
  rewrite Hlayout.
  destruct (Double.to_int (Double.mul _ (Double.of_int width)))
    as [filled|]; [|reflexivity].
  destruct (Int.sub width filled) as [unfilled|]; [|reflexivity].
  destruct (if showPercentage then _ else _) as [percentage|]; reflexivity.
Qed.

(** ** The streams of the menu *)

Section MenuStreams.

Variables separator promptMessage inputQuestionText messageColor numberColor
  separatorColor optionColor inputQuestionColor errorColor : string.

(** X15: on a non-empty list of options and with a line to read, the menu
    takes that line and no other, writes nothing to the error stream, and
    writes to the output the menu followed by the reset for an accepted
    choice, or by the error colour, the message and two resets for a line
    in which [std::stoi] finds no number, a number that is not an [int],
    or a number outside the list. *)
Theorem PromptNumberedMenu_streams (Options : list string)
    (line : string) (rest : list string) (out err : string) :
  Options <> [] ->
  Z.of_nat (List.length Options) <= Int.INT_MAX ->
  let size := Z.of_nat (List.length Options) in
  PromptNumberedMenu Options separator promptMessage inputQuestionText
    messageColor numberColor separatorColor optionColor inputQuestionColor
    errorColor (mkWorld (line :: rest) out err) =
  (match stoi line with
   | Parsed k => if (1 <=? k) && (k <=? size) then k - 1 else -1
   | invalid_argument => -1
   | out_of_range => -1
   end,
   mkWorld rest
     (out ++
      menu_screen Options separator promptMessage inputQuestionText
        messageColor numberColor separatorColor optionColor inputQuestionColor ++
      match stoi line with
      | Parsed k =>
          if (1 <=? k) && (k <=? size) then Color.RESET
          else errorColor ++
               "Invalid choice. Please enter a number between 1 and " ++
               to_string size ++ "." ++ newline ++ newline ++
               Color.RESET ++ Color.RESET
      | invalid_argument =>
          errorColor ++ "Invalid input. Please enter a numeric value." ++
          newline ++ newline ++ Color.RESET ++ Color.RESET
      | out_of_range =>
          errorColor ++
          "The number you entered is out of range. Please try again." ++
          newline ++ newline ++ Color.RESET ++ Color.RESET
      end)
     err).
Proof.
  intros Hne Hsize size.
  rewrite PromptNumberedMenu_run by exact Hne. cbv zeta.
  cbn [cin cout cerr]. fold size.
  destruct (stoi line) as [k| |].
  - rewrite in_range_choice by (unfold size; lia).
    destruct ((1 <=? k) && (k <=? size)); cbn [negb];
      now rewrite !append_assoc.
  - now rewrite !append_assoc.
  - now rewrite !append_assoc.
Qed.

End MenuStreams.

(** ** Instances *)

Ltac int_bounds := unfold Int.INT_MIN, Int.INT_MAX; lia.

Lemma ProgressBar_full_witness :
  (0 < 10 <= Int.INT_MAX /\ 10 <= 12 /\ Int.INT_MIN <= 20 <= Int.INT_MAX) /\
  ProgressBar 12 10 20 Color.GREEN true Color.LIGHT_CYAN =
  Some (Color.GREEN ++ replicate (Z.to_nat 20) "#" ++ Color.RESET ++
        " " ++ Color.LIGHT_CYAN ++ "100%" ++ Color.RESET).
Proof.
  split; [repeat split; int_bounds|].
  apply (ProgressBar_full 12 10 20 Color.GREEN true Color.LIGHT_CYAN);
    int_bounds.
Defined.

Lemma ProgressBar_empty_witness :
  (-10 <> 0 /\ Int.INT_MIN <= -10 <= Int.INT_MAX /\ (5 <= 0 \/ -10 < 0) /\
   Int.INT_MIN <= 10 <= Int.INT_MAX) /\
  ProgressBar 5 (-10) 10 Color.GREEN true Color.LIGHT_CYAN =
  Some (Color.GREEN ++ replicate (Z.to_nat 10) "-" ++ Color.RESET ++
        " " ++ Color.LIGHT_CYAN ++ "0%" ++ Color.RESET).
Proof.
  split; [repeat split; int_bounds|].
  apply (ProgressBar_empty 5 (-10) 10 Color.GREEN true Color.LIGHT_CYAN);
    int_bounds.
Defined.

Lemma ProgressBar_as_AdvancedProgressBar_witness :
  0 < 10 /\
  ProgressBar 3 10 20 Color.GREEN false Color.LIGHT_CYAN =
  AdvancedProgressBar 3 10 20 "" "" "#" "-" Color.GREEN "" Color.WHITE
    Color.YELLOW Color.LIGHT_BLUE Color.RED false false true.
Proof.
  split; [lia|].
  apply (ProgressBar_as_AdvancedProgressBar 3 10 20 Color.GREEN
           Color.LIGHT_CYAN Color.WHITE Color.YELLOW Color.LIGHT_BLUE Color.RED).
  lia.
Defined.

Lemma AdvancedProgressBar_guarded_zero_max_witness :
  Int.INT_MIN <= 10 <= Int.INT_MAX /\
  AdvancedProgressBar 5 0 10 "Loading" "Complete" "#" "-"
    Color.GREEN Color.GRAY Color.WHITE Color.YELLOW Color.LIGHT_BLUE Color.RED
    true true true =
  Some (bar_layout 0 10 "0" "Loading" "Complete" "#" "-"
          Color.GREEN Color.GRAY Color.WHITE Color.YELLOW Color.LIGHT_BLUE
          Color.RED true true true).
Proof.
  split; [int_bounds|].
  apply AdvancedProgressBar_guarded_zero_max. int_bounds.
Defined.

Lemma AdvancedProgressBar_full_witness :
  (-10 <> 0 /\ Int.INT_MIN <= -10 <= Int.INT_MAX /\ (-10 <= 3 \/ -10 < 0) /\
   Int.INT_MIN <= 10 <= Int.INT_MAX) /\
  AdvancedProgressBar 3 (-10) 10 "Loading" "Complete" "#" "-"
    Color.GREEN Color.GRAY Color.WHITE Color.YELLOW Color.LIGHT_BLUE Color.RED
    true true true =
  Some (bar_layout 10 0 "100" "Loading" "Complete" "#" "-"
          Color.GREEN Color.GRAY Color.WHITE Color.YELLOW Color.LIGHT_BLUE
          Color.RED true true true).
Proof.
  split; [repeat split; int_bounds|].
  apply AdvancedProgressBar_full; int_bounds.
Defined.

Lemma AdvancedProgressBar_empty_witness :
  (0 < 10 <= Int.INT_MAX /\ -5 <= 0 /\ Int.INT_MIN <= 10 <= Int.INT_MAX) /\
  AdvancedProgressBar (-5) 10 10 "Loading" "Complete" "#" "-"
    Color.GREEN Color.GRAY Color.WHITE Color.YELLOW Color.LIGHT_BLUE Color.RED
    true true true =
  Some (bar_layout 0 10 "0" "Loading" "Complete" "#" "-"
          Color.GREEN Color.GRAY Color.WHITE Color.YELLOW Color.LIGHT_BLUE
          Color.RED true true true).
Proof.
  split; [repeat split; int_bounds|].
  apply AdvancedProgressBar_empty; int_bounds.
Defined.

Lemma PromptNumberedMenu_end_of_input_witness :
  ["A"; "B"] <> [] /\
  PromptNumberedMenu ["A"; "B"] ": " "Choose:" "Your choice: "
    Color.WHITE Color.LIGHT_BLUE Color.GREEN Color.YELLOW Color.LIGHT_PURPLE
    Color.LIGHT_RED (mkWorld [] "" "") =
  (-1,
   mkWorld []
     ("" ++
      menu_screen ["A"; "B"] ": " "Choose:" "Your choice: "
        Color.WHITE Color.LIGHT_BLUE Color.GREEN Color.YELLOW
        Color.LIGHT_PURPLE ++
      Color.LIGHT_RED ++ Color.RESET)
     ("" ++ "Input error. Exiting." ++ newline)).
Proof.
  split; [discriminate|].
  apply PromptNumberedMenu_end_of_input. discriminate.
Defined.

Lemma PromptNumberedMenu_typed_number_witness :
  (Z.of_nat (List.length ["A"; "B"; "C"]) <= Int.INT_MAX /\
   1 <= 2 <= Z.of_nat (List.length ["A"; "B"; "C"]) /\
   blank " " = true /\ no_digit_ahead " please" = true) /\
  PromptNumberedMenu ["A"; "B"; "C"] ": " "Choose:" "Your choice: "
    Color.WHITE Color.LIGHT_BLUE Color.GREEN Color.YELLOW Color.LIGHT_PURPLE
    Color.LIGHT_RED
    (mkWorld [" " ++ to_string 2 ++ " please"; "next"] "" "") =
  (2 - 1,
   mkWorld ["next"]
     ("" ++
      menu_screen ["A"; "B"; "C"] ": " "Choose:" "Your choice: "
        Color.WHITE Color.LIGHT_BLUE Color.GREEN Color.YELLOW
        Color.LIGHT_PURPLE ++
      Color.RESET)
     "").
Proof.
  split; [repeat split; cbn [List.length Z.of_nat]; int_bounds|].
  apply PromptNumberedMenu_typed_number;
    [cbn [List.length Z.of_nat]; int_bounds
    | cbn [List.length Z.of_nat]; int_bounds
    | reflexivity | reflexivity].
Defined.

Lemma PromptNumberedMenu_result_range_witness :
  Z.of_nat (List.length ["A"; "B"]) <= Int.INT_MAX /\
  (fst (PromptNumberedMenu ["A"; "B"] ": " "Choose:" "Your choice: "
          Color.WHITE Color.LIGHT_BLUE Color.GREEN Color.YELLOW
          Color.LIGHT_PURPLE Color.LIGHT_RED (mkWorld ["7"] "" "")) = -1 \/
   0 <= fst (PromptNumberedMenu ["A"; "B"] ": " "Choose:" "Your choice: "
               Color.WHITE Color.LIGHT_BLUE Color.GREEN Color.YELLOW
               Color.LIGHT_PURPLE Color.LIGHT_RED (mkWorld ["7"] "" ""))
     < Z.of_nat (List.length ["A"; "B"])).
Proof.
  split; [cbn [List.length Z.of_nat]; int_bounds|].
  apply (PromptNumberedMenu_result_range ": " "Choose:" "Your choice: "
           Color.WHITE Color.LIGHT_BLUE Color.GREEN Color.YELLOW
           Color.LIGHT_PURPLE Color.LIGHT_RED ["A"; "B"] (mkWorld ["7"] "" "")).
  cbn [List.length Z.of_nat]. int_bounds.
Defined.

Lemma PauseConsole_then_menu_witness :
  (Z.of_nat (List.length ["A"; "B"; "C"]) <= Int.INT_MAX /\
   1 <= 3 <= Z.of_nat (List.length ["A"; "B"; "C"]) /\
   blank "" = true /\ no_digit_ahead "" = true) /\
  (PauseConsole "Press ENTER" ;;
   PromptNumberedMenu ["A"; "B"; "C"] ": " "Choose:" "Your choice: "
     Color.WHITE Color.LIGHT_BLUE Color.GREEN Color.YELLOW Color.LIGHT_PURPLE
     Color.LIGHT_RED)
    (mkWorld ["1"; "" ++ to_string 3 ++ ""] "" "") =
  (3 - 1,
   mkWorld []
     ("" ++ "Press ENTER" ++ newline ++
      menu_screen ["A"; "B"; "C"] ": " "Choose:" "Your choice: "
        Color.WHITE Color.LIGHT_BLUE Color.GREEN Color.YELLOW
        Color.LIGHT_PURPLE ++
      Color.RESET)
     "").
Proof.
  split; [repeat split; cbn [List.length Z.of_nat]; int_bounds|].
  apply PauseConsole_then_menu;
    [cbn [List.length Z.of_nat]; int_bounds
    | cbn [List.length Z.of_nat]; int_bounds
    | reflexivity | reflexivity].
Defined.

Lemma Spacing_add_witness :
  (0 <= 2 /\ 0 <= 3) /\ Spacing (2 + 3) = Spacing 2 ++ Spacing 3.
Proof.
  split; [split; lia|]. apply Spacing_add; lia.
Defined.

Lemma PromptNumberedMenu_streams_witness :
  (["A"; "B"] <> [] /\ Z.of_nat (List.length ["A"; "B"]) <= Int.INT_MAX) /\
  PromptNumberedMenu ["A"; "B"] ": " "Choose:" "Your choice: "
    Color.WHITE Color.LIGHT_BLUE Color.GREEN Color.YELLOW Color.LIGHT_PURPLE
    Color.LIGHT_RED (mkWorld ["abc"; "2"] "" "") =
  (-1,
   mkWorld ["2"]
     ("" ++
      menu_screen ["A"; "B"] ": " "Choose:" "Your choice: "
        Color.WHITE Color.LIGHT_BLUE Color.GREEN Color.YELLOW
        Color.LIGHT_PURPLE ++
      Color.LIGHT_RED ++ "Invalid input. Please enter a numeric value." ++
      newline ++ newline ++ Color.RESET ++ Color.RESET)
     "").
Proof.
  split; [split; [discriminate | cbn [List.length Z.of_nat]; int_bounds]|].
  apply (PromptNumberedMenu_streams ": " "Choose:" "Your choice: "
           Color.WHITE Color.LIGHT_BLUE Color.GREEN Color.YELLOW
           Color.LIGHT_PURPLE Color.LIGHT_RED ["A"; "B"] "abc" ["2"] "" "");
    [discriminate | cbn [List.length Z.of_nat]; int_bounds].
Defined.

Lemma PromptNumberedMenu_no_retry_witness :
  (["A"; "B"] <> [] /\ Z.of_nat (List.length ["A"; "B"]) <= Int.INT_MAX /\
   integer_text "5" = Some 5 /\ Int.in_range 5 = true /\
   (5 < 1 \/ Z.of_nat (List.length ["A"; "B"]) < 5)) /\
  PromptNumberedMenu ["A"; "B"] ": " "Choose:" "Your choice: "
    Color.WHITE Color.LIGHT_BLUE Color.GREEN Color.YELLOW Color.LIGHT_PURPLE
    Color.LIGHT_RED (mkWorld ["5"; "1"] "" "") =
  (-1,
   mkWorld ["1"]
     (("" ++
       menu_screen ["A"; "B"] ": " "Choose:" "Your choice: "
         Color.WHITE Color.LIGHT_BLUE Color.GREEN Color.YELLOW
         Color.LIGHT_PURPLE) ++
      Color.LIGHT_RED ++
      "Invalid choice. Please enter a number between 1 and " ++
      to_string (Z.of_nat (List.length ["A"; "B"])) ++ "." ++
      newline ++ newline ++ Color.RESET ++ Color.RESET)
     "").
Proof.
  assert (Hne : ["A"; "B"] <> []) by discriminate.
  assert (Hsize : Z.of_nat (List.length ["A"; "B"]) <= Int.INT_MAX)
    by (cbn [List.length Z.of_nat]; int_bounds).
  assert (Htext : integer_text "5" = Some 5) by reflexivity.
  assert (Hint : Int.in_range 5 = true) by reflexivity.
  assert (Hout : 5 < 1 \/ Z.of_nat (List.length ["A"; "B"]) < 5)
    by (cbn [List.length Z.of_nat]; lia).
  split; [repeat split; assumption|].
  pose proof (PromptNumberedMenu_no_retry ": " "Choose:" "Your choice: "
                Color.WHITE Color.LIGHT_BLUE Color.GREEN Color.YELLOW
                Color.LIGHT_PURPLE Color.LIGHT_RED ["A"; "B"] "5" ["1"] "" ""
                Hne Hsize) as [_ Hnumber].
  exact (proj1 (proj2 (Hnumber 5 Htext)) Hint Hout).
Defined.
